(** * GPU telemetry alert engine: rule evaluation, persistence and dispatch

    A shallow embedding of [cmd/alert-engine/alert_engine.go] (rule
    evaluation, alert creation, action dispatch, the Kafka consumer loop),
    of the [resolveAlert] handler of the API server, and of the part of
    [init.sql] those touch.

    - Go's [float64] is IEEE 754 binary64: [spec_float] with the operations
      of [SpecFloat] at precision 53 and maximal exponent 1024.
    - Go's [int] values are only copied around, never computed with: [Z].
    - The relational store is a record of tables (lists of rows), of the
      SERIAL sequences, of a clock, of a schedule of failures and of the
      list of statements sent so far. *)

From Stdlib Require Import ZArith List String Ascii Bool Lia.
From Stdlib Require Import Floats.SpecFloat.
From Stdlib Require DecimalString.
Import ListNotations.
Local Open Scope string_scope.
Local Open Scope Z_scope.

(** ** float64 *)

Module F64.

Definition prec : Z := 53.
Definition emax : Z := 1024.

Definition t : Type := spec_float.

(** The values a Go [float64] can hold. *)
Definition valid (x : t) : bool := valid_binary prec emax x.

Definition div : t -> t -> t := SFdiv prec emax.
Definition mul : t -> t -> t := SFmul prec emax.
(** [gt x y] is Go's [x > y]: false as soon as one side is NaN. *)
Definition gt (x y : t) : bool := SFltb y x.
Definition le (x y : t) : bool := SFleb x y.
Definition eq (x y : t) : bool := SFeqb x y.

(** The float64 nearest to an integer: how an integral literal such as
    [90.0] is read. *)
Definition of_Z (z : Z) : t := binary_normalize prec emax z 0 false.

(** [n / 2] as a float64 (exact for the small [n] used below). *)
Definition of_halves (n : Z) : t := binary_normalize prec emax n (-1) false.

(** [math.IsNaN] and [math.Signbit]. *)
Definition is_nan (x : t) : bool :=
  match x with S754_nan => true | _ => false end.

Definition signbit (x : t) : bool :=
  match x with
  | S754_zero s | S754_infinity s | S754_finite s _ _ => s
  | S754_nan => false
  end.

Definition pinf : t := S754_infinity false.
Definition ninf : t := S754_infinity true.
Definition nan : t := S754_nan.

(** [n / d] rounded to the nearest integer, ties to even ([0 <= n], [0 < d]). *)
Definition round_half_even (n d : Z) : Z :=
  let q := n / d in
  let r := n mod d in
  match 2 * r ?= d with
  | Lt => q
  | Gt => q + 1
  | Eq => if Z.even q then q else q + 1
  end.

(** The number of tenths in [m * 2^e], correctly rounded. *)
Definition tenths (m : positive) (e : Z) : Z :=
  if 0 <=? e then 10 * Zpos m * 2 ^ e
  else round_half_even (10 * Zpos m) (2 ^ (- e)).

Definition decimal (n : Z) : string :=
  DecimalString.NilZero.string_of_uint (N.to_uint (Z.to_N n)).

(** [fmt.Sprintf("%.1f", x)]: one digit after the point, correctly
    rounded; the sign of a negative number is kept also when it rounds to
    zero; [+Inf], [-Inf] and [NaN] for the special values. *)
Definition fmt_1f (x : t) : string :=
  match x with
  | S754_nan => "NaN"
  | S754_infinity false => "+Inf"
  | S754_infinity true => "-Inf"
  | S754_zero s => (if s then "-" else "") ++ "0.0"
  | S754_finite s m e =>
      let n := tenths m e in
      (if s then "-" else "") ++ decimal (n / 10) ++ "." ++ decimal (n mod 10)
  end.

End F64.

Definition float64 : Type := F64.t.

(** ** The data of the alert engine *)

(** [time.Time], kept as an instant on an integer time line. *)
Definition Time : Type := Z.

Record GPUMetric : Type := {
  NodeID : string;
  GPUIndex : Z;
  TemperatureCelsius : float64;
  PowerWatts : float64;
  MemoryUsedMB : float64;
  MemoryTotalMB : float64;
  UtilizationPercent : float64;
  SMClockMHz : Z;
  CollectedAt : Time
}.

(** [Alert]; its fields [NodeID] and [GPUIndex] are [AlertNodeID] and
    [AlertGPUIndex] here, the plain names being those of [GPUMetric]. *)
Record Alert : Type := {
  AlertNodeID : string;
  AlertGPUIndex : Z;
  AlertType : string;
  Severity : string;
  Message : string;
  ThresholdValue : float64;
  ActualValue : float64
}.

(** ** EvaluateRules *)

Definition f90 : float64 := F64.of_Z 90.
Definition f95 : float64 := F64.of_Z 95.
Definition f330 : float64 := F64.of_Z 330.
Definition f100 : float64 := F64.of_Z 100.

Definition temperature_alert (metric : GPUMetric) : Alert :=
  let severity :=
    if F64.gt (TemperatureCelsius metric) f95 then "critical" else "warning" in
  {| AlertNodeID := NodeID metric;
     AlertGPUIndex := GPUIndex metric;
     AlertType := "high_temperature";
     Severity := severity;
     Message := "GPU temperature is " ++ F64.fmt_1f (TemperatureCelsius metric) ++ "¬∞C";
     ThresholdValue := f90;
     ActualValue := TemperatureCelsius metric |}.

Definition power_alert (metric : GPUMetric) : Alert :=
  {| AlertNodeID := NodeID metric;
     AlertGPUIndex := GPUIndex metric;
     AlertType := "high_power";
     Severity := "warning";
     Message := "GPU power consumption is " ++ F64.fmt_1f (PowerWatts metric) ++ "W";
     ThresholdValue := f330;
     ActualValue := PowerWatts metric |}.

Definition memoryPercent (metric : GPUMetric) : float64 :=
  F64.mul (F64.div (MemoryUsedMB metric) (MemoryTotalMB metric)) f100.

Definition memory_alert (metric : GPUMetric) : Alert :=
  {| AlertNodeID := NodeID metric;
     AlertGPUIndex := GPUIndex metric;
     AlertType := "high_memory";
     Severity := "warning";
     Message := "GPU memory usage is " ++ F64.fmt_1f (memoryPercent metric) ++ "%";
     ThresholdValue := f95;
     ActualValue := memoryPercent metric |}.

(** The three rules in the order of the source; [alerts] grows by [append]. *)
Definition EvaluateRules (metric : GPUMetric) : list Alert :=
  let alerts := [] in
  let alerts :=
    if F64.gt (TemperatureCelsius metric) f90
    then (alerts ++ [temperature_alert metric])%list else alerts in
  let alerts :=
    if F64.gt (PowerWatts metric) f330
    then (alerts ++ [power_alert metric])%list else alerts in
  let alerts :=
    if F64.gt (memoryPercent metric) f95
    then (alerts ++ [memory_alert metric])%list else alerts in
  alerts.

(** A sample with the fields the rules do not read set to fixed values. *)
Definition sample (node : string) (gpu : Z) (temp power used total : float64) : GPUMetric :=
  {| NodeID := node; GPUIndex := gpu;
     TemperatureCelsius := temp; PowerWatts := power;
     MemoryUsedMB := used; MemoryTotalMB := total;
     UtilizationPercent := F64.of_Z 50; SMClockMHz := 1410; CollectedAt := 0 |}.

(** ** Errors, JSON values, log lines *)

(** A Go [error] value, by what raised it; [option error] is an [error]
    that may be [nil]. *)
Inductive error : Type :=
| ErrNoRows                        (* sql.ErrNoRows *)
| ErrForeignKey (table : string)   (* the store: a foreign key of [table] is violated *)
| ErrInvalidText                   (* the store: a text parameter is not a value of the column's type *)
| ErrStore                         (* any other failure of the driver or of the store *)
| ErrUnmarshal.                    (* encoding/json: the payload does not decode *)

(** The values the source stores in a [map[string]interface{}]. *)
Inductive Any : Type :=
| VString (s : string)
| VInt (z : Z).

(** What [json.Marshal] makes of a [map[string]interface{}] of the source:
    [JNull] for the nil map, an object otherwise. The entries are listed as
    the source writes them; a Go map has no order of its own. *)
Inductive JSON : Type :=
| JNull
| JObject (fields : list (string * Any)).

Inductive Arg : Type :=
| AStr (s : string)
| AInt (z : Z)
| AErr (e : error).

(** A call of [log.Printf] or [log.Println]: the format and its arguments. *)
Record LogLine : Type := { format : string; args : list Arg }.

(** ** The store: init.sql *)

Record NodeRow : Type := {
  node_pk : Z;
  node_id : string;
  hostname : string;
  datacenter : string;
  node_status : string;
  last_seen : Time;
  created_at : Time
}.

Record MetricRow : Type := {
  metric_pk : Z;
  metric_columns : GPUMetric
}.

Record AlertRow : Type := {
  alert_id : Z;
  alert_columns : Alert;
  alert_status : string;
  triggered_at : Time;
  resolved_at : option Time
}.

Record ActionRow : Type := {
  action_pk : Z;
  action_alert_id : Z;
  action_type : string;
  action_status : string;
  action_details : JSON;
  executed_at : Time
}.

(** The statements the two programs send. *)
Inductive Stmt : Type :=
| InsertMetric (metric : GPUMetric)
| InsertAlert (alert : Alert)
| UpdateNodeDegraded (node : string)
| InsertAction (alertID : Z) (actionType : string) (details : JSON)
| UpdateAlertResolved (alertID : option Z).

(** The store. [faults] is the environment: the outcome ([true]: it fails)
    of each coming statement for reasons the tables do not decide (the
    connection, a value the column type refuses, an exhausted sequence);
    past its end every statement goes through. [sent] lists the statements
    received so far, oldest first. *)
Record DB : Type := {
  gpu_nodes : list NodeRow;
  gpu_metrics : list MetricRow;
  alerts : list AlertRow;
  alert_actions : list ActionRow;
  gpu_metrics_id_seq : Z;
  alerts_id_seq : Z;
  alert_actions_id_seq : Z;
  now : Time;
  faults : list bool;
  sent : list Stmt
}.

Definition set_gpu_nodes (db : DB) (v : list NodeRow) : DB :=
  {| gpu_nodes := v; gpu_metrics := gpu_metrics db; alerts := alerts db;
     alert_actions := alert_actions db;
     gpu_metrics_id_seq := gpu_metrics_id_seq db; alerts_id_seq := alerts_id_seq db;
     alert_actions_id_seq := alert_actions_id_seq db;
     now := now db; faults := faults db; sent := sent db |}.

Definition set_gpu_metrics (db : DB) (v : list MetricRow) (seq : Z) : DB :=
  {| gpu_nodes := gpu_nodes db; gpu_metrics := v; alerts := alerts db;
     alert_actions := alert_actions db;
     gpu_metrics_id_seq := seq; alerts_id_seq := alerts_id_seq db;
     alert_actions_id_seq := alert_actions_id_seq db;
     now := now db; faults := faults db; sent := sent db |}.

Definition set_alerts (db : DB) (v : list AlertRow) (seq : Z) : DB :=
  {| gpu_nodes := gpu_nodes db; gpu_metrics := gpu_metrics db; alerts := v;
     alert_actions := alert_actions db;
     gpu_metrics_id_seq := gpu_metrics_id_seq db; alerts_id_seq := seq;
     alert_actions_id_seq := alert_actions_id_seq db;
     now := now db; faults := faults db; sent := sent db |}.

Definition set_alert_actions (db : DB) (v : list ActionRow) (seq : Z) : DB :=
  {| gpu_nodes := gpu_nodes db; gpu_metrics := gpu_metrics db; alerts := alerts db;
     alert_actions := v;
     gpu_metrics_id_seq := gpu_metrics_id_seq db; alerts_id_seq := alerts_id_seq db;
     alert_actions_id_seq := seq;
     now := now db; faults := faults db; sent := sent db |}.

Definition set_faults (db : DB) (v : list bool) : DB :=
  {| gpu_nodes := gpu_nodes db; gpu_metrics := gpu_metrics db; alerts := alerts db;
     alert_actions := alert_actions db;
     gpu_metrics_id_seq := gpu_metrics_id_seq db; alerts_id_seq := alerts_id_seq db;
     alert_actions_id_seq := alert_actions_id_seq db;
     now := now db; faults := v; sent := sent db |}.

Definition set_sent (db : DB) (v : list Stmt) : DB :=
  {| gpu_nodes := gpu_nodes db; gpu_metrics := gpu_metrics db; alerts := alerts db;
     alert_actions := alert_actions db;
     gpu_metrics_id_seq := gpu_metrics_id_seq db; alerts_id_seq := alerts_id_seq db;
     alert_actions_id_seq := alert_actions_id_seq db;
     now := now db; faults := faults db; sent := v |}.

(** [FOREIGN KEY (node_id) REFERENCES gpu_nodes(node_id)]. *)
Definition node_exists (db : DB) (node : string) : bool :=
  existsb (fun n => node_id n =? node)%string (gpu_nodes db).

(** [FOREIGN KEY (alert_id) REFERENCES alerts(id)]. *)
Definition alert_exists (db : DB) (id : Z) : bool :=
  existsb (fun a => alert_id a =? id) (alerts db).

Definition degrade (node : string) (n : NodeRow) : NodeRow :=
  if (node_id n =? node)%string then
    {| node_pk := node_pk n; node_id := node_id n; hostname := hostname n;
       datacenter := datacenter n; node_status := "degraded";
       last_seen := last_seen n; created_at := created_at n |}
  else n.

Definition resolve (id : Z) (at_ : Time) (a : AlertRow) : AlertRow :=
  if alert_id a =? id then
    {| alert_id := alert_id a; alert_columns := alert_columns a;
       alert_status := "resolved"; triggered_at := triggered_at a;
       resolved_at := Some at_ |}
  else a.

(** What a statement does once the store runs it: the new tables, and the
    rows of its RETURNING clause or the error. A SERIAL value is drawn
    before the foreign key is checked, so a refused INSERT uses one up. *)
Definition apply_stmt (s : Stmt) (db : DB) : DB * (list Z + error) :=
  match s with
  | InsertMetric metric =>
      let id := gpu_metrics_id_seq db in
      if node_exists db (NodeID metric) then
        (set_gpu_metrics db
           (gpu_metrics db ++ [{| metric_pk := id; metric_columns := metric |}])%list
           (id + 1),
         inl [])
      else (set_gpu_metrics db (gpu_metrics db) (id + 1), inr (ErrForeignKey "gpu_metrics"))
  | InsertAlert alert =>
      let id := alerts_id_seq db in
      if node_exists db (AlertNodeID alert) then
        (set_alerts db
           (alerts db ++ [{| alert_id := id; alert_columns := alert;
                             alert_status := "active"; triggered_at := now db;
                             resolved_at := None |}])%list
           (id + 1),
         inl [id])
      else (set_alerts db (alerts db) (id + 1), inr (ErrForeignKey "alerts"))
  | UpdateNodeDegraded node =>
      (set_gpu_nodes db (map (degrade node) (gpu_nodes db)), inl [])
  | InsertAction alertID actionType details =>
      let id := alert_actions_id_seq db in
      if alert_exists db alertID then
        (set_alert_actions db
           (alert_actions db ++ [{| action_pk := id; action_alert_id := alertID;
                                    action_type := actionType;
                                    action_status := "executed";
                                    action_details := details;
                                    executed_at := now db |}])%list
           (id + 1),
         inl [])
      else (set_alert_actions db (alert_actions db) (id + 1), inr (ErrForeignKey "alert_actions"))
  | UpdateAlertResolved None => (db, inr ErrInvalidText)
  | UpdateAlertResolved (Some id) =>
      (set_alerts db (map (resolve id (now db)) (alerts db)) (alerts_id_seq db),
       inl (map alert_id (filter (fun a => alert_id a =? id) (alerts db))))
  end.

(** The store once it has received [s]: the statement is recorded and its
    entry of [faults] is used up. *)
Definition received (s : Stmt) (db : DB) : DB :=
  set_faults (set_sent db (sent db ++ [s])%list) (tl (faults db)).

(** A statement reaches the store: it fails or runs as [faults] says. *)
Definition send (s : Stmt) (db : DB) : DB * (list Z + error) :=
  if hd false (faults db) then (received s db, inr ErrStore)
  else apply_stmt s (received s db).

(** The store right after init.sql, at time [at_]. *)
Definition init_db (at_ : Time) : DB :=
  {| gpu_nodes :=
       [ {| node_pk := 1; node_id := "node-1"; hostname := "dgx-gpu-01.nvidia.com";
            datacenter := "us-west-1"; node_status := "healthy";
            last_seen := at_; created_at := at_ |};
         {| node_pk := 2; node_id := "node-2"; hostname := "dgx-gpu-02.nvidia.com";
            datacenter := "us-west-1"; node_status := "healthy";
            last_seen := at_; created_at := at_ |} ];
     gpu_metrics := []; alerts := []; alert_actions := [];
     gpu_metrics_id_seq := 1; alerts_id_seq := 1; alert_actions_id_seq := 1;
     now := at_; faults := []; sent := [] |}.

(** ** The alert engine *)

(** A Kafka message, as far as the engine reads it. *)
Record kafka_Message : Type := {
  Offset : Z;
  Key : string;
  Value : string
}.

(** [AlertEngine] and what it acts on: the store behind [ae.db], the
    messages handed to [kafkaReader.CommitMessages] (oldest first), whether
    the reader and the store connection were closed, and the log. *)
Record Engine : Type := {
  db : DB;
  commits : list kafka_Message;
  reader_closed : bool;
  db_closed : bool;
  log : list LogLine
}.

(** Code that runs on the engine: a state monad. *)
Definition M (A : Type) : Type := Engine -> A * Engine.

Definition ret {A : Type} (a : A) : M A := fun st => (a, st).

Definition bind {A B : Type} (c : M A) (k : A -> M B) : M B :=
  fun st => let (a, st') := c st in k a st'.

Declare Scope engine_scope.
Delimit Scope engine_scope with engine.
Notation "x <- c ;; k" := (bind c (fun x => k))
  (at level 61, c at next level, right associativity) : engine_scope.
Notation "c ;;; k" := (bind c (fun _ => k))
  (at level 61, right associativity) : engine_scope.
Local Open Scope engine_scope.

Definition log_Printf (fmt : string) (a : list Arg) : M unit :=
  fun st =>
    (tt, {| db := db st; commits := commits st; reader_closed := reader_closed st;
            db_closed := db_closed st;
            log := (log st ++ [{| format := fmt; args := a |}])%list |}).

Definition with_db {A : Type} (f : DB -> DB * A) : M A :=
  fun st =>
    let (d, r) := f (db st) in
    (r, {| db := d; commits := commits st; reader_closed := reader_closed st;
           db_closed := db_closed st; log := log st |}).

(** [ae.db.Exec(...)]: only the error is looked at. *)
Definition db_Exec (s : Stmt) : M (option error) :=
  r <- with_db (send s) ;;
  ret (match r with inl _ => None | inr e => Some e end).

(** [ae.db.QueryRow(...).Scan(&id)]: the first row, [sql.ErrNoRows] when
    there is none. *)
Definition db_QueryRow_Scan (s : Stmt) : M (Z + error) :=
  r <- with_db (send s) ;;
  ret (match r with
       | inl (id :: _) => inl id
       | inl [] => inr ErrNoRows
       | inr e => inr e
       end).

Definition CommitMessages (msg : kafka_Message) : M unit :=
  fun st =>
    (tt, {| db := db st; commits := (commits st ++ [msg])%list;
            reader_closed := reader_closed st; db_closed := db_closed st;
            log := log st |}).

Definition Close : M unit :=
  fun st =>
    (tt, {| db := db st; commits := commits st; reader_closed := true;
            db_closed := true; log := log st |}).

Definition StoreMetric (metric : GPUMetric) : M (option error) :=
  db_Exec (InsertMetric metric).

(** The two formats [TakeAction] logs with, as the source file has them. *)
Definition critical_format : string :=
  "üö® CRITICAL ACTION: Initiating workload migration from %s GPU %d".

Definition warning_format : string :=
  "‚ö†Ô∏è  WARNING: Sending notification for %s on %s GPU %d".

Definition TakeAction (alertID : Z) (alert : Alert) : M (option error) :=
  action <-
    (if (Severity alert =? "critical")%string then
       err <- db_Exec (UpdateNodeDegraded (AlertNodeID alert)) ;;
       match err with
       | Some e => log_Printf "Failed to update node status: %v" [AErr e]
       | None => ret tt
       end ;;;
       log_Printf critical_format
         [AStr (AlertNodeID alert); AInt (AlertGPUIndex alert)] ;;;
       ret ("workload_migration",
            JObject [("action", VString "migrate_workloads");
                     ("from_node", VString (AlertNodeID alert));
                     ("from_gpu", VInt (AlertGPUIndex alert));
                     ("reason", VString (Message alert))])
     else if (Severity alert =? "warning")%string then
       log_Printf warning_format
         [AStr (AlertType alert); AStr (AlertNodeID alert); AInt (AlertGPUIndex alert)] ;;;
       ret ("notification",
            JObject [("action", VString "send_notification");
                     ("channel", VString "slack");
                     ("message", VString (Message alert))])
     else ret ("", JNull)) ;;
  db_Exec (InsertAction alertID (fst action) (snd action)).

Definition CreateAlert (alert : Alert) : M (option error) :=
  r <- db_QueryRow_Scan (InsertAlert alert) ;;
  match r with
  | inr err => ret (Some err)
  | inl alertID =>
      log_Printf "Created alert ID=%d: [%s] %s on %s GPU %d"
        [AInt alertID; AStr (Severity alert); AStr (AlertType alert);
         AStr (AlertNodeID alert); AInt (AlertGPUIndex alert)] ;;;
      TakeAction alertID alert
  end.

(** [for _, alert := range alerts { ... }] of [Run]. *)
Fixpoint create_alerts (alerts : list Alert) : M unit :=
  match alerts with
  | [] => ret tt
  | alert :: rest =>
      err <- CreateAlert alert ;;
      match err with
      | Some e => log_Printf "Error creating alert: %v" [AErr e]
      | None => ret tt
      end ;;;
      create_alerts rest
  end.

(** What one turn of the loop of [Run] meets: the context is done, or
    [FetchMessage] returns an error or a message. *)
Inductive Turn : Type :=
| CtxDone
| FetchFailed (e : error)
| Fetched (msg : kafka_Message).

Section Consumer.

(** [json.Unmarshal(msg.Value, &metric)]. *)
Variable Unmarshal : string -> GPUMetric + error.

(** One turn of the [for] loop: [Some r] when [Run] returns [r], [None]
    when the loop goes on. *)
Definition Run_turn (t : Turn) : M (option (option error)) :=
  match t with
  | CtxDone =>
      log_Printf "Alert Engine shutting down" [] ;;;
      Close ;;;
      ret (Some None)
  | FetchFailed e =>
      log_Printf "Error fetching message: %v" [AErr e] ;;;
      ret None
  | Fetched msg =>
      match Unmarshal (Value msg) with
      | inr e =>
          log_Printf "Error unmarshaling metric: %v" [AErr e] ;;;
          CommitMessages msg ;;;
          ret None
      | inl metric =>
          err <- StoreMetric metric ;;
          match err with
          | Some e => log_Printf "Error storing metric: %v" [AErr e]
          | None => ret tt
          end ;;;
          create_alerts (EvaluateRules metric) ;;;
          CommitMessages msg ;;;
          ret None
      end
  end.

Fixpoint Run_loop (turns : list Turn) : M (option (option error)) :=
  match turns with
  | [] => ret None
  | t :: rest =>
      r <- Run_turn t ;;
      match r with
      | Some result => ret (Some result)
      | None => Run_loop rest
      end
  end.

(** [Run] along the turns the environment offers; [None] when they are
    used up and the loop is still waiting. *)
Definition Run (turns : list Turn) : M (option (option error)) :=
  log_Printf "Alert Engine started, consuming from Kafka..." [] ;;;
  Run_loop turns.

End Consumer.

(** A fresh engine on a store. *)
Definition engine_on (d : DB) : Engine :=
  {| db := d; commits := []; reader_closed := false; db_closed := false; log := [] |}.

(** ** The API server: resolveAlert *)

Inductive Body : Type :=
| Text (s : string)          (* http.Error with a fixed text *)
| ErrorText (e : error)      (* http.Error with err.Error() *)
| Encoded (fields : list (string * Any)).  (* json.NewEncoder(w).Encode(map) *)

Record Response : Type := {
  StatusCode : Z;
  ContentType : string;
  ResponseBody : Body
}.

Definition StatusOK : Z := 200.
Definition StatusNotFound : Z := 404.
Definition StatusInternalServerError : Z := 500.

Definition http_Error (body : Body) (code : Z) : Response :=
  {| StatusCode := code; ContentType := "text/plain; charset=utf-8"; ResponseBody := body |}.

Section APIServer.

(** How the store reads the text of the [$1] parameter as a value of the
    INT column [alerts.id]; [None] when it refuses it. *)
Variable int4in : string -> option Z.

(** The handler on the store behind [s.db]; [alertID] is
    [mux.Vars(r)["alert_id"]]. *)
Definition resolveAlert (alertID : string) (d : DB) : DB * Response :=
  let (d', r) := send (UpdateAlertResolved (int4in alertID)) d in
  let scanned :=
    match r with
    | inl (id :: _) => inl id
    | inl [] => inr ErrNoRows
    | inr e => inr e
    end in
  match scanned with
  | inr ErrNoRows => (d', http_Error (Text "Alert not found") StatusNotFound)
  | inr err => (d', http_Error (ErrorText err) StatusInternalServerError)
  | inl id =>
      (d', {| StatusCode := StatusOK; ContentType := "application/json";
              ResponseBody := Encoded [("message", VString "Alert resolved");
                                       ("alert_id", VInt id)] |})
  end.

End APIServer.

(** What every store reached by the two programs satisfies: the ids of the
    alerts are below the next value of their sequence, and every action
    refers to an alert of the table (its foreign key). *)
Definition db_wf (d : DB) : Prop :=
  (forall a, In a (alerts d) -> alert_id a < alerts_id_seq d) /\
  (forall r, In r (alert_actions d) -> alert_exists d (action_alert_id r) = true).

(** Engine code that keeps [db_wf]. *)
Definition preserves {A : Type} (c : M A) : Prop :=
  forall st, db_wf (db st) -> db_wf (db (snd (c st))).

(** The next [n] statements are not failed by the environment. *)
Definition next_ok (n : nat) (d : DB) : bool :=
  forallb negb (firstn n (faults d)).

(** The actions recorded for an alert. *)
Definition actions_of (id : Z) (d : DB) : list ActionRow :=
  filter (fun r => action_alert_id r =? id) (alert_actions d).

(** The candidates of one alert type among a list of candidates. *)
Definition of_type (ty : string) (l : list Alert) : list Alert :=
  filter (fun a => (AlertType a =? ty)%string) l.

(** ** Sample alerts, stores and messages *)

(** An alert of a severity [TakeAction] has no case for, and a store that
    holds it under id 1. *)
Definition info_alert : Alert :=
  {| AlertNodeID := "node-1"; AlertGPUIndex := 0;
     AlertType := "high_temperature"; Severity := "info";
     Message := "GPU temperature is 91.0¬∞C";
     ThresholdValue := f90; ActualValue := F64.of_Z 91 |}.

Definition info_db : DB := fst (send (InsertAlert info_alert) (init_db 0)).

(** A critical and a warning alert on node-1, and the stores that hold
    them under id 1. *)
Definition critical_alert : Alert :=
  {| AlertNodeID := "node-1"; AlertGPUIndex := 3;
     AlertType := "high_temperature"; Severity := "critical";
     Message := "GPU temperature is 96.0¬∞C";
     ThresholdValue := f90; ActualValue := F64.of_Z 96 |}.

Definition warning_alert : Alert :=
  {| AlertNodeID := "node-1"; AlertGPUIndex := 3;
     AlertType := "high_power"; Severity := "warning";
     Message := "GPU power consumption is 340.0W";
     ThresholdValue := f330; ActualValue := F64.of_Z 340 |}.

Definition warning_db : DB := fst (send (InsertAlert warning_alert) (init_db 0)).

Definition critical_db : DB := fst (send (InsertAlert critical_alert) (init_db 0)).

(** The same store when the environment fails its next statement. *)
Definition failing (d : DB) : DB := set_faults d [true].

(** A reader of unsigned decimal numerals, to run the handler with. *)
Fixpoint read_digits (s : string) (acc : Z) : option Z :=
  match s with
  | EmptyString => Some acc
  | String c rest =>
      let n := Z.of_nat (nat_of_ascii c) in
      if (48 <=? n) && (n <=? 57) then read_digits rest (10 * acc + (n - 48)) else None
  end.

Definition read_decimal (s : string) : option Z :=
  match s with
  | EmptyString => None
  | _ => read_digits s 0
  end.

(** A decoder for two payloads: the empty object, which leaves every field
    at its zero value, and anything else, which it refuses. *)
Definition zero_metric : GPUMetric :=
  {| NodeID := ""; GPUIndex := 0;
     TemperatureCelsius := F64.of_Z 0; PowerWatts := F64.of_Z 0;
     MemoryUsedMB := F64.of_Z 0; MemoryTotalMB := F64.of_Z 0;
     UtilizationPercent := F64.of_Z 0; SMClockMHz := 0; CollectedAt := 0 |}.

Definition decode_empty_object (payload : string) : GPUMetric + error :=
  if (payload =? "{}")%string then inl zero_metric else inr ErrUnmarshal.

Definition malformed : kafka_Message :=
  {| Offset := 41; Key := "node-1-gpu-0"; Value := "not json" |}.

Definition empty_object : kafka_Message :=
  {| Offset := 42; Key := "node-1-gpu-1"; Value := "{}" |}.

Definition hot : kafka_Message :=
  {| Offset := 43; Key := "node-1-gpu-0"; Value := "96/340/78000/80000" |}.

(** A decoder that reads every payload as the sample of C4 on node-1. *)
Definition decode_hot (payload : string) : GPUMetric + error :=
  inl (sample "node-1" 0 (F64.of_Z 96) (F64.of_Z 340) (F64.of_Z 78000) (F64.of_Z 80000)).

(** ** What the loop does to the reader *)

(** The messages fetched before the context is done. *)
Fixpoint fetched_before_done (turns : list Turn) : list kafka_Message :=
  match turns with
  | [] => []
  | CtxDone :: _ => []
  | FetchFailed _ :: rest => fetched_before_done rest
  | Fetched msg :: rest => msg :: fetched_before_done rest
  end.

Definition is_done (t : Turn) : bool :=
  match t with CtxDone => true | _ => false end.

(** Engine code that leaves the reader and the two closed flags alone. *)
Definition quiet {A : Type} (c : M A) : Prop :=
  forall st,
    commits (snd (c st)) = commits st /\
    reader_closed (snd (c st)) = reader_closed st /\
    db_closed (snd (c st)) = db_closed st.

(** ** What the engine sends *)

(** The statements [Run] can send: no resolution of an alert, no alert of a
    severity other than critical and warning, no action without a type. *)
Definition engine_stmt (s : Stmt) : Prop :=
  match s with
  | InsertMetric _ => True
  | UpdateNodeDegraded _ => True
  | InsertAlert alert => Severity alert = "critical" \/ Severity alert = "warning"
  | InsertAction _ actionType details =>
      (actionType = "workload_migration" \/ actionType = "notification") /\ details <> JNull
  | UpdateAlertResolved _ => False
  end.

(** Engine code keeps [I] on the store. *)
Definition maintains {A : Type} (I : DB -> Prop) (c : M A) : Prop :=
  forall st, I (db st) -> I (db (snd (c st))).

(** Engine code that acts on the store by statements of [P] only: it keeps
    whatever those statements keep. *)
Definition sends_only {A : Type} (P : Stmt -> Prop) (c : M A) : Prop :=
  forall I : DB -> Prop,
    (forall s d, P s -> I d -> I (fst (send s d))) -> maintains I c.

Definition known_severity (alert : Alert) : Prop :=
  Severity alert = "critical" \/ Severity alert = "warning".

(** Engine code whose result satisfies [Q]. *)
Definition returns {A : Type} (Q : A -> Prop) (c : M A) : Prop :=
  forall st, Q (fst (c st)).

(** An alert row as [CreateAlert] leaves it. *)
Definition fresh_alert (a : AlertRow) : Prop :=
  alert_status a = "active" /\ resolved_at a = None /\ known_severity (alert_columns a).

(** An action row as [TakeAction] leaves it for an alert of [EvaluateRules]. *)
Definition typed_action (r : ActionRow) : Prop :=
  (action_type r = "workload_migration" \/ action_type r = "notification") /\
  action_status r = "executed" /\ action_details r <> JNull.

(** [d'] holds the rows of [d], untouched and in place, followed by rows
    the engine wrote. *)
Definition appended (d d' : DB) : Prop :=
  (exists new, gpu_metrics d' = (gpu_metrics d ++ new)%list) /\
  (exists new, alerts d' = (alerts d ++ new)%list /\ Forall fresh_alert new) /\
  (exists new, alert_actions d' = (alert_actions d ++ new)%list /\ Forall typed_action new).

(** A node row that differs from [n] by its status at most, which is then
    degraded. *)
Definition degraded_at_most (n n' : NodeRow) : Prop :=
  node_pk n' = node_pk n /\ node_id n' = node_id n /\
  hostname n' = hostname n /\ datacenter n' = datacenter n /\
  last_seen n' = last_seen n /\ created_at n' = created_at n /\
  (node_status n' = node_status n \/ node_status n' = "degraded").

(** A critical alert for a node that init.sql does not insert. *)
Definition stray_alert : Alert :=
  {| AlertNodeID := "node-9"; AlertGPUIndex := 0;
     AlertType := "high_temperature"; Severity := "critical";
     Message := "GPU temperature is 99.0¬∞C";
     ThresholdValue := F64.of_Z 90; ActualValue := F64.of_Z 99 |}.

(** ** The rows a fault-free store ends up with *)

(** The type and the details of the action [TakeAction] records for an
    alert. *)
Definition action_of (alert : Alert) : string * JSON :=
  if (Severity alert =? "critical")%string then
    ("workload_migration",
     JObject [("action", VString "migrate_workloads");
              ("from_node", VString (AlertNodeID alert));
              ("from_gpu", VInt (AlertGPUIndex alert));
              ("reason", VString (Message alert))])
  else if (Severity alert =? "warning")%string then
    ("notification",
     JObject [("action", VString "send_notification");
              ("channel", VString "slack");
              ("message", VString (Message alert))])
  else ("", JNull).

(** The alert rows of the candidates [l], inserted one after the other
    from id [id] on. *)
Fixpoint alert_rows (id : Z) (at_ : Time) (l : list Alert) : list AlertRow :=
  match l with
  | [] => []
  | alert :: rest =>
      {| alert_id := id; alert_columns := alert; alert_status := "active";
         triggered_at := at_; resolved_at := None |} :: alert_rows (id + 1) at_ rest
  end.

(** Their action rows, from key [pk] on. *)
Fixpoint action_rows (pk id : Z) (at_ : Time) (l : list Alert) : list ActionRow :=
  match l with
  | [] => []
  | alert :: rest =>
      {| action_pk := pk; action_alert_id := id;
         action_type := fst (action_of alert); action_status := "executed";
         action_details := snd (action_of alert); executed_at := at_ |}
      :: action_rows (pk + 1) (id + 1) at_ rest
  end.

(** [d'] is [d] after the candidates [l] went through [CreateAlert] with
    no statement refused: one alert row and one action row for each, in
    order, and nothing else changed but the status of nodes. *)
Definition created (l : list Alert) (d d' : DB) : Prop :=
  faults d' = [] /\
  now d' = now d /\
  map node_id (gpu_nodes d') = map node_id (gpu_nodes d) /\
  gpu_metrics d' = gpu_metrics d /\
  alerts d' = (alerts d ++ alert_rows (alerts_id_seq d) (now d) l)%list /\
  alerts_id_seq d' = alerts_id_seq d + Z.of_nat (List.length l) /\
  alert_actions d' =
    (alert_actions d ++
     action_rows (alert_actions_id_seq d) (alerts_id_seq d) (now d) l)%list /\
  alert_actions_id_seq d' = alert_actions_id_seq d + Z.of_nat (List.length l).

(** Every alert of the store has exactly one action; no alert id has more
    than one. *)
Definition one_action_each (d : DB) : Prop :=
  forall a, In a (alerts d) -> List.length (actions_of (alert_id a) d) = 1%nat.

Definition at_most_one_action (d : DB) : Prop :=
  forall id, (List.length (actions_of id d) <= 1)%nat.

(** A decoder that reads every payload as a hot sample of a node that
    init.sql does not insert. *)
Definition decode_stray (payload : string) : GPUMetric + error :=
  inl (sample "node-9" 0 (F64.of_Z 96) (F64.of_Z 340) (F64.of_Z 78000) (F64.of_Z 80000)).

(** ** More of the API server *)

(** An alert row that is [a] untouched, or [a] turned resolved because its
    id is the one the request names. *)
Definition resolved_at_most (target : option Z) (a a' : AlertRow) : Prop :=
  alert_id a' = alert_id a /\
  alert_columns a' = alert_columns a /\
  triggered_at a' = triggered_at a /\
  (a' = a \/ (alert_status a' = "resolved" /\ target = Some (alert_id a))).

(** The store when its clock reads [t]. *)
Definition at_time (t : Time) (d : DB) : DB :=
  {| gpu_nodes := gpu_nodes d; gpu_metrics := gpu_metrics d; alerts := alerts d;
     alert_actions := alert_actions d;
     gpu_metrics_id_seq := gpu_metrics_id_seq d; alerts_id_seq := alerts_id_seq d;
     alert_actions_id_seq := alert_actions_id_seq d;
     now := t; faults := faults d; sent := sent d |}.

(** [NodeHealth] of the API server; its field [NodeID] is [HealthNodeID]
    here. *)
Record NodeHealth : Type := {
  HealthNodeID : string;
  Hostname : string;
  Status : string;
  Datacenter : string;
  LastSeen : Time;
  ActiveAlerts : Z
}.

(** The alerts the LEFT JOIN of [getNodeHealth] pairs with a node: those of
    the node that are active. *)
Definition active_alerts (node : string) (d : DB) : list AlertRow :=
  filter (fun a => (AlertNodeID (alert_columns a) =? node)%string &&
                   (alert_status a =? "active")%string)
         (alerts d).

(** The SELECT of [getNodeHealth]: one row for each node of that id (one at
    most, node_id being UNIQUE), with the count of its active alerts. The
    rows of the model hold no NULL, so the Scan into strings cannot fail. *)
Definition select_node_health (nodeID : string) (d : DB) : list NodeHealth :=
  map (fun n =>
         {| HealthNodeID := node_id n; Hostname := hostname n;
            Status := node_status n; Datacenter := datacenter n;
            LastSeen := last_seen n;
            ActiveAlerts := Z.of_nat (List.length (active_alerts (node_id n) d)) |})
      (filter (fun n => (node_id n =? nodeID)%string) (gpu_nodes d)).

Inductive HealthBody : Type :=
| HealthText (s : string)          (* http.Error with a fixed text *)
| HealthErrorText (e : error)      (* http.Error with err.Error() *)
| HealthEncoded (node : NodeHealth).  (* json.NewEncoder(w).Encode(node) *)

Record HealthResponse : Type := {
  HealthStatusCode : Z;
  HealthContentType : string;
  HealthResponseBody : HealthBody
}.

Definition health_ok (node : NodeHealth) : HealthResponse :=
  {| HealthStatusCode := StatusOK; HealthContentType := "application/json";
     HealthResponseBody := HealthEncoded node |}.

Definition health_Error (body : HealthBody) (code : Z) : HealthResponse :=
  {| HealthStatusCode := code; HealthContentType := "text/plain; charset=utf-8";
     HealthResponseBody := body |}.

(** The handler on the store behind [s.db]; [nodeID] is
    [mux.Vars(r)["node_id"]]. The query uses up its entry of [faults]; being
    a SELECT it changes no table and is not entered in [sent], which keeps
    the statements of [Stmt]. *)
Definition getNodeHealth (nodeID : string) (d : DB) : DB * HealthResponse :=
  let d' := set_faults d (tl (faults d)) in
  let scanned :=
    if hd false (faults d) then inr ErrStore
    else match select_node_health nodeID d with
         | node :: _ => inl node
         | [] => inr ErrNoRows
         end in
  match scanned with
  | inr ErrNoRows => (d', health_Error (HealthText "Node not found") StatusNotFound)
  | inr err => (d', health_Error (HealthErrorText err) StatusInternalServerError)
  | inl node => (d', health_ok node)
  end.

(** The store of init.sql after [critical_alert] went through
    [CreateAlert]: alert 1 is active and node-1 is degraded. *)
Definition migrated_db : DB :=
  db (snd (CreateAlert critical_alert (engine_on (init_db 0)))).

(** ** Running engine code in proofs *)

Ltac run_engine :=
  unfold StoreMetric, db_Exec, db_QueryRow_Scan;
  unfold bind, log_Printf, ret, with_db, CommitMessages, Close;
  cbn [db commits log reader_closed db_closed fst snd].

(** * Properties *)

(** ** float64 comparisons *)

Lemma f90_eq : f90 = S754_finite false 6333186975989760 (-46).
Proof. reflexivity. Qed.

Lemma f95_eq : f95 = S754_finite false 6685030696878080 (-46).
Proof. reflexivity. Qed.

Lemma thresholds_valid :
  F64.valid f90 = true /\ F64.valid f95 = true /\
  F64.valid f330 = true /\ F64.valid f100 = true.
Proof. repeat split; reflexivity. Qed.

(** Swapping the sides of a comparison reverses its outcome. *)
Lemma SFcompare_swap (x y : spec_float) :
  SFcompare y x = option_map CompOpp (SFcompare x y).
Proof.
  destruct x as [sx | sx | | sx mx ex], y as [sy | sy | | sy my ey]; simpl;
    try reflexivity;
    try (destruct sx; reflexivity);
    try (destruct sy; reflexivity);
    try (destruct sx, sy; reflexivity).
  destruct sx, sy; simpl; try reflexivity;
    rewrite (Z.compare_antisym ex ey);
    destruct (ex ?= ey); simpl; try reflexivity;
    rewrite (Pos.compare_cont_antisym mx my Eq); simpl;
    try rewrite CompOpp_involutive; reflexivity.
Qed.

Lemma le_not_gt (x y : float64) : F64.le x y = true -> F64.gt x y = false.
Proof.
  unfold F64.le, F64.gt, SFleb, SFltb.
  rewrite (SFcompare_swap x y).
  destruct (SFcompare x y) as [[ | | ] | ]; simpl; congruence.
Qed.

(** [x > c] for a positive finite [c], by cases on [x]. *)
Lemma gt_finite (x : float64) (mc : positive) (ec : Z) :
  F64.gt x (S754_finite false mc ec) =
    match x with
    | S754_infinity false => true
    | S754_finite false m e =>
        match ec ?= e with
        | Lt => true
        | Gt => false
        | Eq => (mc <? m)%positive
        end
    | _ => false
    end.
Proof.
  unfold F64.gt, SFltb.
  destruct x as [s | s | | s m e]; cbv beta iota delta [SFcompare];
    try reflexivity; destruct s; try reflexivity.
  destruct (ec ?= e); reflexivity.
Qed.

Lemma gt_f95_gt_f90 (x : float64) : F64.gt x f95 = true -> F64.gt x f90 = true.
Proof.
  rewrite f95_eq, f90_eq, !gt_finite.
  destruct x as [s | s | | s m e]; try congruence.
  destruct s; try congruence.
  destruct (-46 ?= e); try congruence.
  rewrite !Pos.ltb_lt. lia.
Qed.

(** ** EvaluateRules *)

Lemma EvaluateRules_eq (metric : GPUMetric) :
  EvaluateRules metric =
    ((if F64.gt (TemperatureCelsius metric) f90 then [temperature_alert metric] else []) ++
     (if F64.gt (PowerWatts metric) f330 then [power_alert metric] else []) ++
     (if F64.gt (memoryPercent metric) f95 then [memory_alert metric] else []))%list.
Proof.
  unfold EvaluateRules.
  destruct (F64.gt (TemperatureCelsius metric) f90),
           (F64.gt (PowerWatts metric) f330),
           (F64.gt (memoryPercent metric) f95); reflexivity.
Qed.

Lemma of_type_temperature (metric : GPUMetric) :
  of_type "high_temperature" (EvaluateRules metric) =
    if F64.gt (TemperatureCelsius metric) f90 then [temperature_alert metric] else [].
Proof.
  rewrite EvaluateRules_eq. unfold of_type.
  destruct (F64.gt (TemperatureCelsius metric) f90),
           (F64.gt (PowerWatts metric) f330),
           (F64.gt (memoryPercent metric) f95); reflexivity.
Qed.

Lemma of_type_memory (metric : GPUMetric) :
  of_type "high_memory" (EvaluateRules metric) =
    if F64.gt (memoryPercent metric) f95 then [memory_alert metric] else [].
Proof.
  rewrite EvaluateRules_eq. unfold of_type.
  destruct (F64.gt (TemperatureCelsius metric) f90),
           (F64.gt (PowerWatts metric) f330),
           (F64.gt (memoryPercent metric) f95); reflexivity.
Qed.

(** C3. A temperature above 95.0 gives one high_temperature candidate, of
    severity critical and threshold 90.0; a temperature above 90.0 and at
    most 95.0 gives one of severity warning and threshold 90.0; a
    temperature of at most 90.0 gives none. *)
Theorem C3_high_temperature (metric : GPUMetric) :
  let t := TemperatureCelsius metric in
  let candidate (severity : string) :=
    {| AlertNodeID := NodeID metric; AlertGPUIndex := GPUIndex metric;
       AlertType := "high_temperature"; Severity := severity;
       Message := "GPU temperature is " ++ F64.fmt_1f t ++ "¬∞C";
       ThresholdValue := F64.of_Z 90; ActualValue := t |} in
  (F64.gt t (F64.of_Z 95) = true ->
   of_type "high_temperature" (EvaluateRules metric) = [candidate "critical"]) /\
  (F64.gt t (F64.of_Z 90) = true -> F64.le t (F64.of_Z 95) = true ->
   of_type "high_temperature" (EvaluateRules metric) = [candidate "warning"]) /\
  (F64.le t (F64.of_Z 90) = true ->
   of_type "high_temperature" (EvaluateRules metric) = []).
Proof.
  intros t candidate. subst candidate. fold f90 f95.
  rewrite of_type_temperature. unfold temperature_alert. fold t.
  repeat split.
  - intros H. rewrite (gt_f95_gt_f90 t H), H. reflexivity.
  - intros H90 H95. rewrite H90, (le_not_gt t f95 H95). reflexivity.
  - intros H. rewrite (le_not_gt t f90 H). reflexivity.
Qed.

Example C3_high_temperature_witness :
  of_type "high_temperature"
    (EvaluateRules (sample "node-1" 0 (F64.of_Z 96) (F64.of_Z 300) (F64.of_Z 40000) (F64.of_Z 80000)))
  = [ {| AlertNodeID := "node-1"; AlertGPUIndex := 0;
         AlertType := "high_temperature"; Severity := "critical";
         Message := "GPU temperature is 96.0¬∞C";
         ThresholdValue := F64.of_Z 90; ActualValue := F64.of_Z 96 |} ] /\
  of_type "high_temperature"
    (EvaluateRules (sample "node-1" 0 (F64.of_Z 95) (F64.of_Z 300) (F64.of_Z 40000) (F64.of_Z 80000)))
  = [ {| AlertNodeID := "node-1"; AlertGPUIndex := 0;
         AlertType := "high_temperature"; Severity := "warning";
         Message := "GPU temperature is 95.0¬∞C";
         ThresholdValue := F64.of_Z 90; ActualValue := F64.of_Z 95 |} ] /\
  of_type "high_temperature"
    (EvaluateRules (sample "node-1" 0 (F64.of_Z 90) (F64.of_Z 300) (F64.of_Z 40000) (F64.of_Z 80000)))
  = [].
Proof.
  split; [| split].
  - apply (proj1 (C3_high_temperature
                    (sample "node-1" 0 (F64.of_Z 96) (F64.of_Z 300) (F64.of_Z 40000) (F64.of_Z 80000)))).
    reflexivity.
  - apply (proj1 (proj2 (C3_high_temperature
                    (sample "node-1" 0 (F64.of_Z 95) (F64.of_Z 300) (F64.of_Z 40000) (F64.of_Z 80000))))).
    + reflexivity.
    + reflexivity.
  - apply (proj2 (proj2 (C3_high_temperature
                    (sample "node-1" 0 (F64.of_Z 90) (F64.of_Z 300) (F64.of_Z 40000) (F64.of_Z 80000))))).
    reflexivity.
Defined.

(** C4. Temperature 96, power 340, 78000 MB used of 80000 MB: exactly three
    candidates, in the order of the rules: a critical high_temperature, a
    warning high_power and a warning high_memory whose actual value is
    97.5, whatever the other fields of the sample are. *)
Theorem C4_three_candidates (node : string) (gpu clock : Z) (util : float64) (at_ : Time) :
  EvaluateRules
    {| NodeID := node; GPUIndex := gpu;
       TemperatureCelsius := F64.of_Z 96; PowerWatts := F64.of_Z 340;
       MemoryUsedMB := F64.of_Z 78000; MemoryTotalMB := F64.of_Z 80000;
       UtilizationPercent := util; SMClockMHz := clock; CollectedAt := at_ |}
  = [ {| AlertNodeID := node; AlertGPUIndex := gpu;
         AlertType := "high_temperature"; Severity := "critical";
         Message := "GPU temperature is 96.0¬∞C";
         ThresholdValue := F64.of_Z 90; ActualValue := F64.of_Z 96 |};
      {| AlertNodeID := node; AlertGPUIndex := gpu;
         AlertType := "high_power"; Severity := "warning";
         Message := "GPU power consumption is 340.0W";
         ThresholdValue := F64.of_Z 330; ActualValue := F64.of_Z 340 |};
      {| AlertNodeID := node; AlertGPUIndex := gpu;
         AlertType := "high_memory"; Severity := "warning";
         Message := "GPU memory usage is 97.5%";
         ThresholdValue := F64.of_Z 95; ActualValue := F64.of_halves 195 |} ].
Proof. vm_compute. reflexivity. Qed.

(** Go's [x == 0] holds of the two zeros only. *)
Lemma eq_zero_inv (x : float64) :
  F64.eq x (F64.of_Z 0) = true -> exists s, x = S754_zero s.
Proof.
  destruct x as [s | s | | s m e]; cbn; try discriminate.
  - exists s. reflexivity.
  - destruct s; discriminate.
  - destruct s; discriminate.
Qed.

(** With 100 MB used of a total of 0 MB the memory rule fires: the quotient
    is +Inf, and so is the reported value. *)
Lemma C1_counterexample :
  let metric := sample "node-1" 0 (F64.of_Z 70) (F64.of_Z 300) (F64.of_Z 100) (F64.of_Z 0) in
  F64.eq (MemoryTotalMB metric) (F64.of_Z 0) = true /\
  of_type "high_memory" (EvaluateRules metric)
  = [ {| AlertNodeID := "node-1"; AlertGPUIndex := 0;
         AlertType := "high_memory"; Severity := "warning";
         Message := "GPU memory usage is +Inf%";
         ThresholdValue := F64.of_Z 95; ActualValue := F64.pinf |} ].
Proof. split; reflexivity. Qed.

(** C1, as the code has it. On a sample whose mem_total_mb equals 0 (either
    zero) the evaluation is a plain float64 division, which raises nothing;
    a high_memory candidate is produced exactly when mem_used_mb is not
    NaN, not zero, and has the sign of that zero: the quotient is then
    +Inf, which is the candidate's actual value. In every other case, a
    zero mem_used_mb among them, there is no high_memory candidate. *)
Theorem C1_zero_total (metric : GPUMetric) :
  let used := MemoryUsedMB metric in
  let total := MemoryTotalMB metric in
  F64.eq total (F64.of_Z 0) = true ->
  of_type "high_memory" (EvaluateRules metric) =
    if negb (F64.is_nan used) && negb (F64.eq used (F64.of_Z 0)) &&
       Bool.eqb (F64.signbit used) (F64.signbit total)
    then [ {| AlertNodeID := NodeID metric; AlertGPUIndex := GPUIndex metric;
              AlertType := "high_memory"; Severity := "warning";
              Message := "GPU memory usage is +Inf%";
              ThresholdValue := F64.of_Z 95; ActualValue := F64.pinf |} ]
    else [].
Proof.
  intros used total H. rewrite of_type_memory.
  unfold memory_alert, memoryPercent. fold used total.
  destruct (eq_zero_inv total H) as [s0 ->].
  destruct used as [s | s | | s m e]; try reflexivity;
    destruct s, s0; reflexivity.
Qed.

Example C1_zero_total_witness :
  of_type "high_memory"
    (EvaluateRules (sample "node-1" 0 (F64.of_Z 70) (F64.of_Z 300) (F64.of_Z 0) (F64.of_Z 0)))
  = [].
Proof.
  apply (C1_zero_total
           (sample "node-1" 0 (F64.of_Z 70) (F64.of_Z 300) (F64.of_Z 0) (F64.of_Z 0))).
  reflexivity.
Defined.

(** C10. No two candidates of one evaluation have the same alert type, so
    there are at most three; each carries the node id and the GPU index of
    the sample. *)
Theorem C10_one_candidate_per_type (metric : GPUMetric) :
  NoDup (map AlertType (EvaluateRules metric)) /\
  (List.length (EvaluateRules metric) <= 3)%nat /\
  Forall (fun a => AlertNodeID a = NodeID metric /\ AlertGPUIndex a = GPUIndex metric)
         (EvaluateRules metric).
Proof.
  rewrite EvaluateRules_eq.
  destruct (F64.gt (TemperatureCelsius metric) f90),
           (F64.gt (PowerWatts metric) f330),
           (F64.gt (memoryPercent metric) f95); cbn [app map List.length];
    (split; [| split]);
    try (repeat constructor; cbn; intuition discriminate);
    try (cbn; lia).
Qed.

(** ** The store *)

Lemma next_ok_hd (n : nat) (d : DB) :
  next_ok (S n) d = true -> hd false (faults d) = false.
Proof.
  unfold next_ok. destruct (faults d) as [| [] rest]; cbn; congruence.
Qed.

Lemma alert_exists_In (d : DB) (id : Z) :
  alert_exists d id = true <-> exists a, In a (alerts d) /\ alert_id a = id.
Proof.
  unfold alert_exists. rewrite existsb_exists.
  split; intros [a [Ha E]]; exists a; split; try assumption; lia.
Qed.

Lemma init_db_wf (at_ : Time) : db_wf (init_db at_).
Proof. split; cbn; intros ? []. Qed.

Lemma map_resolve_ids (id : Z) (at_ : Time) (l : list AlertRow) :
  map alert_id (map (resolve id at_) l) = map alert_id l.
Proof.
  rewrite map_map. apply map_ext. intros a. unfold resolve.
  destruct (alert_id a =? id); reflexivity.
Qed.

Lemma existsb_alert_ids (id : Z) (l : list AlertRow) :
  existsb (fun a => alert_id a =? id) l = existsb (Z.eqb id) (map alert_id l).
Proof.
  induction l as [| a l IH]; cbn; [reflexivity |].
  rewrite IH, (Z.eqb_sym id). reflexivity.
Qed.

(** The invariant survives every statement, accepted or not. *)
Lemma send_wf (s : Stmt) (d : DB) : db_wf d -> db_wf (fst (send s d)).
Proof.
  intros [Hid Hfk]. unfold send.
  destruct (hd false (faults d)); [split; assumption |].
  assert (Hex : forall id, alert_exists (received s d) id = alert_exists d id) by reflexivity.
  destruct s as [metric | alert | node | alertID actionType details | [id |]]; cbn [apply_stmt].
  - unfold node_exists. cbn [received set_faults set_sent gpu_nodes].
    destruct (existsb _ (gpu_nodes d)); split; assumption.
  - unfold node_exists. cbn [received set_faults set_sent gpu_nodes].
    destruct (existsb _ (gpu_nodes d)); cbn [fst].
    + split; cbn.
      * intros a Ha. apply in_app_or in Ha. destruct Ha as [Ha | [<- | []]]; cbn.
        -- specialize (Hid a Ha). lia.
        -- lia.
      * intros r Hr. specialize (Hfk r Hr). unfold alert_exists in *. cbn.
        rewrite existsb_app, Hfk. reflexivity.
    + split; cbn.
      * intros a Ha. specialize (Hid a Ha). lia.
      * exact Hfk.
  - split; assumption.
  - rewrite Hex. destruct (alert_exists d alertID) eqn:E; cbn [fst].
    + split; cbn.
      * exact Hid.
      * intros r Hr. apply in_app_or in Hr. destruct Hr as [Hr | [<- | []]].
        -- exact (Hfk r Hr).
        -- exact E.
    + split; assumption.
  - split; cbn.
    + intros a Ha. apply in_map_iff in Ha. destruct Ha as [a0 [<- Ha0]].
      specialize (Hid a0 Ha0). unfold resolve.
      destruct (alert_id a0 =? id); cbn; exact Hid.
    + intros r Hr. specialize (Hfk r Hr). unfold alert_exists in *. cbn.
      rewrite existsb_alert_ids, map_resolve_ids, <- existsb_alert_ids. exact Hfk.
  - split; assumption.
Qed.

Lemma actions_of_fresh (d : DB) : db_wf d -> actions_of (alerts_id_seq d) d = [].
Proof.
  intros [Hid Hfk]. unfold actions_of.
  induction (alert_actions d) as [| r l IH]; cbn; [reflexivity |].
  destruct (action_alert_id r =? alerts_id_seq d) eqn:E.
  - apply Z.eqb_eq in E.
    destruct (proj1 (alert_exists_In d _) (Hfk r (or_introl eq_refl))) as [a [Ha Ea]].
    specialize (Hid a Ha). lia.
  - apply IH. intros r' Hr'. apply Hfk. right. exact Hr'.
Qed.

Lemma degrade_all (node : string) (l : list NodeRow) (n : NodeRow) :
  In n (map (degrade node) l) -> node_id n = node -> node_status n = "degraded".
Proof.
  intros Hn E. apply in_map_iff in Hn. destruct Hn as [n0 [<- _]].
  unfold degrade in *. destruct (node_id n0 =? node)%string eqn:E0; cbn in *.
  - reflexivity.
  - apply String.eqb_neq in E0. contradiction.
Qed.

Lemma degrade_some (node : string) (l : list NodeRow) :
  existsb (fun n => node_id n =? node)%string l = true ->
  exists n, In n (map (degrade node) l) /\ node_id n = node.
Proof.
  intros H. apply existsb_exists in H. destruct H as [n [Hn E]].
  exists (degrade node n). split; [apply in_map; exact Hn |].
  unfold degrade. rewrite E. cbn. apply String.eqb_eq. exact E.
Qed.

(** ** TakeAction and CreateAlert *)

(** [db_wf] is an invariant of everything the engine runs. *)
Lemma preserves_ret {A : Type} (a : A) : preserves (ret a).
Proof. intros st H. exact H. Qed.

Lemma preserves_bind {A B : Type} (c : M A) (k : A -> M B) :
  preserves c -> (forall a, preserves (k a)) -> preserves (bind c k).
Proof.
  intros Hc Hk st H. unfold bind. specialize (Hc st H).
  destruct (c st) as [a st1]. apply (Hk a st1). exact Hc.
Qed.

Lemma preserves_log (fmt : string) (a : list Arg) : preserves (log_Printf fmt a).
Proof. intros st H. exact H. Qed.

Lemma preserves_send (s : Stmt) : preserves (with_db (send s)).
Proof.
  intros st H. unfold with_db. pose proof (send_wf s (db st) H) as Hs.
  destruct (send s (db st)) as [d r]. exact Hs.
Qed.

Lemma preserves_Exec (s : Stmt) : preserves (db_Exec s).
Proof.
  apply preserves_bind; [apply preserves_send | intros; apply preserves_ret].
Qed.

Lemma preserves_TakeAction (alertID : Z) (alert : Alert) :
  preserves (TakeAction alertID alert).
Proof.
  unfold TakeAction. apply preserves_bind; [| intros; apply preserves_Exec].
  destruct (Severity alert =? "critical")%string;
    [| destruct (Severity alert =? "warning")%string].
  - apply preserves_bind; [apply preserves_Exec | intros err].
    apply preserves_bind; [destruct err; [apply preserves_log | apply preserves_ret] |].
    intros _. apply preserves_bind; [apply preserves_log | intros; apply preserves_ret].
  - apply preserves_bind; [apply preserves_log | intros; apply preserves_ret].
  - apply preserves_ret.
Qed.

Lemma preserves_CreateAlert (alert : Alert) : preserves (CreateAlert alert).
Proof.
  unfold CreateAlert, db_QueryRow_Scan.
  apply preserves_bind.
  - apply preserves_bind; [apply preserves_send | intros; apply preserves_ret].
  - intros [alertID | err]; [| apply preserves_ret].
    apply preserves_bind; [apply preserves_log | intros; apply preserves_TakeAction].
Qed.

Lemma preserves_create_alerts (l : list Alert) : preserves (create_alerts l).
Proof.
  induction l as [| alert rest IH]; cbn [create_alerts]; [apply preserves_ret |].
  apply preserves_bind; [apply preserves_CreateAlert | intros err].
  apply preserves_bind; [destruct err; [apply preserves_log | apply preserves_ret] |].
  intros _. exact IH.
Qed.

Lemma preserves_Run (Unmarshal : string -> GPUMetric + error) (turns : list Turn) :
  preserves (Run Unmarshal turns).
Proof.
  unfold Run. apply preserves_bind; [apply preserves_log | intros _].
  induction turns as [| t rest IH]; cbn [Run_loop]; [apply preserves_ret |].
  apply preserves_bind; [| intros [result |]; [apply preserves_ret | exact IH]].
  destruct t as [| e | msg]; cbn [Run_turn].
  - apply preserves_bind; [apply preserves_log | intros _].
    apply preserves_bind; [intros st H; exact H | intros; apply preserves_ret].
  - apply preserves_bind; [apply preserves_log | intros; apply preserves_ret].
  - destruct (Unmarshal (Value msg)) as [metric | e].
    + apply preserves_bind; [apply preserves_Exec | intros err].
      apply preserves_bind; [destruct err; [apply preserves_log | apply preserves_ret] |].
      intros _. apply preserves_bind; [apply preserves_create_alerts | intros _].
      apply preserves_bind; [intros st H; exact H | intros; apply preserves_ret].
    + apply preserves_bind; [apply preserves_log | intros _].
      apply preserves_bind; [intros st H; exact H | intros; apply preserves_ret].
Qed.

(** C6. A warning alert: the nodes table is left as it was and the only
    statement sent is the INSERT of the notification action; when the store
    runs that INSERT, the actions table grows by exactly one row, for this
    alert id, of type notification. *)
Theorem C6_warning_notification (alertID : Z) (alert : Alert) (st : Engine) :
  Severity alert = "warning" ->
  let details :=
    JObject [("action", VString "send_notification");
             ("channel", VString "slack");
             ("message", VString (Message alert))] in
  let '(err, st') := TakeAction alertID alert st in
  (gpu_nodes (db st') = gpu_nodes (db st) /\
   sent (db st') = (sent (db st) ++ [InsertAction alertID "notification" details])%list) /\
  (alert_exists (db st) alertID = true -> next_ok 1 (db st) = true ->
   err = None /\
   alert_actions (db st') =
     (alert_actions (db st) ++
      [ {| action_pk := alert_actions_id_seq (db st); action_alert_id := alertID;
           action_type := "notification"; action_status := "executed";
           action_details := details; executed_at := now (db st) |} ])%list).
Proof.
  intros H details. subst details. unfold TakeAction. rewrite H.
  change ("warning" =? "critical")%string with false.
  change ("warning" =? "warning")%string with true.
  cbv beta iota. run_engine. unfold send.
  destruct (hd false (faults (db st))) eqn:F.
  - cbn. split; [split; reflexivity |]. intros _ Hok.
    rewrite (next_ok_hd 0 (db st) Hok) in F. discriminate.
  - cbn [apply_stmt].
    change (alert_exists (received _ (db st)) alertID) with (alert_exists (db st) alertID).
    destruct (alert_exists (db st) alertID); cbn.
    + split; [split; reflexivity |]. intros _ _. split; reflexivity.
    + split; [split; reflexivity |]. discriminate.
Qed.

(** C9. A critical alert whose id is in the alerts table, a store that runs
    the INSERT: whether the UPDATE of the node failed or not, [TakeAction]
    returns nil and the row it adds reads workload_migration, executed.
    When the UPDATE failed, the nodes are as they were and the failure
    shows in the log only. *)
Theorem C9_executed_whatever_the_update
    (alertID : Z) (alert : Alert) (st : Engine) (failed : bool) :
  Severity alert = "critical" ->
  alert_exists (db st) alertID = true ->
  hd false (faults (db st)) = failed ->
  hd false (tl (faults (db st))) = false ->
  let '(err, st') := TakeAction alertID alert st in
  err = None /\
  alert_actions (db st') =
    (alert_actions (db st) ++
     [ {| action_pk := alert_actions_id_seq (db st); action_alert_id := alertID;
          action_type := "workload_migration"; action_status := "executed";
          action_details :=
            JObject [("action", VString "migrate_workloads");
                     ("from_node", VString (AlertNodeID alert));
                     ("from_gpu", VInt (AlertGPUIndex alert));
                     ("reason", VString (Message alert))];
          executed_at := now (db st) |} ])%list /\
  (failed = true ->
   gpu_nodes (db st') = gpu_nodes (db st) /\
   log st' =
     (log st ++
      [ {| format := "Failed to update node status: %v"; args := [AErr ErrStore] |};
        {| format := critical_format;
           args := [AStr (AlertNodeID alert); AInt (AlertGPUIndex alert)] |} ])%list).
Proof.
  intros H Hex F1 F2. unfold TakeAction. rewrite H.
  change ("critical" =? "critical")%string with true.
  cbv beta iota.
  destruct st as [[nodes metrics als acts mseq aseq cseq nw flts snt] cms rc dc lg].
  unfold alert_exists in Hex. cbn in Hex, F1, F2.
  run_engine. unfold send, received, alert_exists.
  destruct flts as [| b [| b' rest]]; cbn in F1, F2; subst;
    try destruct failed; try discriminate; cbn; rewrite ?Hex; cbn.
  all: repeat split; try reflexivity; try discriminate.
  all: rewrite <- app_assoc; reflexivity.
Qed.

(** On an alert of severity info [TakeAction] returns nil, logs nothing and
    records an action for the alert: a row with an empty action type, read
    as executed. *)
Lemma C2_counterexample :
  alert_exists info_db 1 = true /\
  let '(err, st') := TakeAction 1 info_alert (engine_on info_db) in
  err = None /\
  log st' = [] /\
  alert_actions (db st') =
    [ {| action_pk := 1; action_alert_id := 1; action_type := "";
         action_status := "executed"; action_details := JNull; executed_at := 0 |} ].
Proof. split; [reflexivity |]. cbn. repeat split; reflexivity. Qed.

(** C2, as the code has it. An alert whose severity is neither critical nor
    warning falls through the switch: nothing is logged, the nodes are left
    alone, and the one statement sent is the INSERT of an action with an
    empty type and null details. No error of its own is raised: when the
    store runs the INSERT the row is added, read as executed, and the
    result is nil. *)
Theorem C2_unhandled_severity (alertID : Z) (alert : Alert) (st : Engine) :
  Severity alert <> "critical" ->
  Severity alert <> "warning" ->
  let '(err, st') := TakeAction alertID alert st in
  (log st' = log st /\
   gpu_nodes (db st') = gpu_nodes (db st) /\
   sent (db st') = (sent (db st) ++ [InsertAction alertID "" JNull])%list) /\
  (alert_exists (db st) alertID = true -> next_ok 1 (db st) = true ->
   err = None /\
   alert_actions (db st') =
     (alert_actions (db st) ++
      [ {| action_pk := alert_actions_id_seq (db st); action_alert_id := alertID;
           action_type := ""; action_status := "executed";
           action_details := JNull; executed_at := now (db st) |} ])%list).
Proof.
  intros Hc Hw. unfold TakeAction.
  rewrite (proj2 (String.eqb_neq _ _) Hc), (proj2 (String.eqb_neq _ _) Hw).
  destruct st as [[nodes metrics als acts mseq aseq cseq nw flts snt] cms rc dc lg].
  run_engine. unfold send, received, alert_exists, next_ok.
  destruct flts as [| [] rest]; cbn;
    destruct (existsb (fun a => alert_id a =? alertID) als); cbn;
    (split; [repeat split; reflexivity |]); intros; try discriminate;
    split; reflexivity.
Qed.

Example C2_unhandled_severity_witness :
  let '(err, st') := TakeAction 1 info_alert (engine_on info_db) in
  log st' = [] /\
  sent (db st') = [InsertAlert info_alert; InsertAction 1 "" JNull] /\
  err = None /\
  alert_actions (db st') =
    [ {| action_pk := 1; action_alert_id := 1; action_type := "";
         action_status := "executed"; action_details := JNull; executed_at := 0 |} ].
Proof.
  pose proof (C2_unhandled_severity 1 info_alert (engine_on info_db)) as H.
  destruct (TakeAction 1 info_alert (engine_on info_db)) as [err st'].
  destruct H as [[Hlog [_ Hsent]] Hrow].
  - discriminate.
  - discriminate.
  - destruct Hrow as [Herr Hacts]; [reflexivity | reflexivity |].
    repeat split; assumption.
Defined.

Example C6_warning_notification_witness :
  let '(err, st') := TakeAction 1 warning_alert (engine_on warning_db) in
  gpu_nodes (db st') = gpu_nodes (init_db 0) /\
  err = None /\
  alert_actions (db st') =
    [ {| action_pk := 1; action_alert_id := 1;
         action_type := "notification"; action_status := "executed";
         action_details :=
           JObject [("action", VString "send_notification");
                    ("channel", VString "slack");
                    ("message", VString "GPU power consumption is 340.0W")];
         executed_at := 0 |} ].
Proof.
  pose proof (C6_warning_notification 1 warning_alert (engine_on warning_db)) as H.
  destruct (TakeAction 1 warning_alert (engine_on warning_db)) as [err st'].
  destruct H as [[Hnodes _] Hrow].
  - reflexivity.
  - destruct Hrow as [Herr Hacts]; [reflexivity | reflexivity |].
    repeat split; assumption.
Defined.

Example C9_executed_whatever_the_update_witness :
  let '(err, st') := TakeAction 1 critical_alert (engine_on (failing critical_db)) in
  err = None /\
  map action_status (alert_actions (db st')) = ["executed"] /\
  map node_status (gpu_nodes (db st')) = ["healthy"; "healthy"].
Proof.
  pose proof (C9_executed_whatever_the_update
                1 critical_alert (engine_on (failing critical_db)) true) as H.
  destruct (TakeAction 1 critical_alert (engine_on (failing critical_db))) as [err st'].
  destruct H as [Herr [Hacts Hfailed]]; try reflexivity.
  destruct (Hfailed eq_refl) as [Hnodes _].
  rewrite Hacts, Hnodes. split; [exact Herr | split; reflexivity].
Defined.

(** C5. A critical alert for a node of the nodes table, on a store that
    satisfies [db_wf] and runs the INSERT of the alert. The statements reach
    the store in the order INSERT of the alert, UPDATE of the node, INSERT
    of the action, whatever becomes of the last two. When the store runs
    all three, [CreateAlert] returns nil, every row of the alert's node
    reads degraded (and there is one), and the actions of the new alert id
    are exactly one row, workload_migration, executed. *)
Theorem C5_critical_migration (alert : Alert) (st : Engine) :
  Severity alert = "critical" ->
  db_wf (db st) ->
  node_exists (db st) (AlertNodeID alert) = true ->
  next_ok 1 (db st) = true ->
  let alertID := alerts_id_seq (db st) in
  let details :=
    JObject [("action", VString "migrate_workloads");
             ("from_node", VString (AlertNodeID alert));
             ("from_gpu", VInt (AlertGPUIndex alert));
             ("reason", VString (Message alert))] in
  let '(err, st') := CreateAlert alert st in
  sent (db st') =
    (sent (db st) ++
     [InsertAlert alert; UpdateNodeDegraded (AlertNodeID alert);
      InsertAction alertID "workload_migration" details])%list /\
  (next_ok 3 (db st) = true ->
   err = None /\
   (exists n, In n (gpu_nodes (db st')) /\ node_id n = AlertNodeID alert) /\
   (forall n, In n (gpu_nodes (db st')) ->
              node_id n = AlertNodeID alert -> node_status n = "degraded") /\
   alert_exists (db st') alertID = true /\
   actions_of alertID (db st') =
     [ {| action_pk := alert_actions_id_seq (db st); action_alert_id := alertID;
          action_type := "workload_migration"; action_status := "executed";
          action_details := details; executed_at := now (db st) |} ]).
Proof.
  intros H Hwf Hnode Hok alertID details. subst alertID details.
  pose proof (actions_of_fresh (db st) Hwf) as Hfresh.
  unfold CreateAlert, TakeAction. rewrite H.
  change ("critical" =? "critical")%string with true.
  cbv beta iota.
  destruct st as [[nodes metrics als acts mseq aseq cseq nw flts snt] cms rc dc lg].
  unfold node_exists in Hnode. unfold next_ok in Hok. unfold actions_of in Hfresh.
  cbn in Hnode, Hok, Hfresh.
  run_engine. unfold send, received, alert_exists, node_exists, actions_of, next_ok.
  assert (Hnew : existsb (fun a => alert_id a =? aseq)
                   (als ++ [{| alert_id := aseq; alert_columns := alert;
                               alert_status := "active"; triggered_at := nw;
                               resolved_at := None |}]) = true).
  { rewrite existsb_app. cbn. rewrite Z.eqb_refl, orb_true_r. reflexivity. }
  destruct flts as [| [] [| b2 [| b3 rest]]]; cbn in Hok; try discriminate;
    try destruct b2; try destruct b3;
    cbn; rewrite Hnode; cbn; rewrite ?Hnew; cbn;
    (split; [rewrite <- ?app_assoc; reflexivity |]);
    intros Hall; try discriminate;
    rewrite ?filter_app, ?Hfresh; cbn; rewrite ?Z.eqb_refl; cbn;
    (repeat split;
     [ apply degrade_some; exact Hnode
     | apply degrade_all
     | exact Hnew ]).
Qed.

Example C5_critical_migration_witness :
  let '(err, st') := CreateAlert critical_alert (engine_on (init_db 0)) in
  err = None /\
  sent (db st') =
    [InsertAlert critical_alert; UpdateNodeDegraded "node-1";
     InsertAction 1 "workload_migration"
       (JObject [("action", VString "migrate_workloads");
                 ("from_node", VString "node-1");
                 ("from_gpu", VInt 3);
                 ("reason", VString "GPU temperature is 96.0¬∞C")])] /\
  map action_type (actions_of 1 (db st')) = ["workload_migration"] /\
  map action_status (actions_of 1 (db st')) = ["executed"].
Proof.
  pose proof (C5_critical_migration critical_alert (engine_on (init_db 0))) as H.
  destruct (CreateAlert critical_alert (engine_on (init_db 0))) as [err st'].
  destruct H as [Hsent Hrun].
  - reflexivity.
  - apply init_db_wf.
  - reflexivity.
  - reflexivity.
  - destruct (Hrun eq_refl) as [Herr [_ [_ [_ Hacts]]]].
    change (alerts_id_seq (db (engine_on (init_db 0)))) with 1 in Hacts, Hsent.
    rewrite Hacts. repeat split; assumption.
Defined.

(** ** resolveAlert *)

Lemma returning_ids (id : Z) (l : list AlertRow) :
  existsb (fun a => alert_id a =? id) l = true ->
  exists rest, map alert_id (filter (fun a => alert_id a =? id) l) = id :: rest.
Proof.
  induction l as [| a l IH]; cbn; [discriminate |].
  destruct (alert_id a =? id) eqn:E; cbn.
  - intros _. apply Z.eqb_eq in E. rewrite E. eexists. reflexivity.
  - exact IH.
Qed.

Lemma returning_none (id : Z) (l : list AlertRow) :
  existsb (fun a => alert_id a =? id) l = false ->
  filter (fun a => alert_id a =? id) l = [] /\
  forall at_, map (resolve id at_) l = l.
Proof.
  induction l as [| a l IH]; cbn; [intros _; split; reflexivity |].
  intros H. apply orb_false_elim in H. destruct H as [E H].
  destruct (IH H) as [IH1 IH2]. rewrite E. split.
  - exact IH1.
  - intros at_. unfold resolve at 1. rewrite E, IH2. reflexivity.
Qed.

Lemma resolve_all (id : Z) (at_ : Time) (l : list AlertRow) (a : AlertRow) :
  In a (map (resolve id at_) l) -> alert_id a = id ->
  alert_status a = "resolved" /\ resolved_at a = Some at_.
Proof.
  intros Ha E. apply in_map_iff in Ha. destruct Ha as [a0 [<- _]].
  unfold resolve in *. destruct (alert_id a0 =? id) eqn:E0; cbn in *.
  - split; reflexivity.
  - apply Z.eqb_neq in E0. contradiction.
Qed.

(** Resolution leaves the values captured at evaluation time alone. *)
Lemma resolve_columns (id : Z) (at_ : Time) (a : AlertRow) :
  alert_id (resolve id at_ a) = alert_id a /\
  alert_columns (resolve id at_ a) = alert_columns a /\
  triggered_at (resolve id at_ a) = triggered_at a.
Proof. unfold resolve. destruct (alert_id a =? id); repeat split; reflexivity. Qed.

(** C7. The path variable reads as the integer [id]. When the store runs
    the UPDATE and no alert has that id, the answer is 404 with the text
    Alert not found, and the alerts are as they were; when an alert has that
    id, the answer is 200 with the id, and the alert reads resolved with
    resolved_at set to the time of the store. When the store fails the
    statement the answer is 500 with the error's text: another outcome than
    the 404. *)
Theorem C7_resolveAlert_not_found
    (int4in : string -> option Z) (alertID : string) (id : Z) (d : DB) :
  int4in alertID = Some id ->
  let '(d', resp) := resolveAlert int4in alertID d in
  (next_ok 1 d = true -> alert_exists d id = false ->
   resp = http_Error (Text "Alert not found") StatusNotFound /\
   StatusCode resp <> StatusInternalServerError /\
   alerts d' = alerts d) /\
  (next_ok 1 d = true -> alert_exists d id = true ->
   StatusCode resp = StatusOK /\
   ResponseBody resp = Encoded [("message", VString "Alert resolved"); ("alert_id", VInt id)] /\
   alerts d' = map (resolve id (now d)) (alerts d) /\
   forall a, In a (alerts d') -> alert_id a = id ->
             alert_status a = "resolved" /\ resolved_at a = Some (now d)) /\
  (next_ok 1 d = false ->
   resp = http_Error (ErrorText ErrStore) StatusInternalServerError /\
   alerts d' = alerts d).
Proof.
  intros Hid. unfold resolveAlert, send. rewrite Hid.
  destruct d as [nodes metrics als acts mseq aseq cseq nw flts snt].
  unfold next_ok, alert_exists, received. cbn [faults alerts now set_faults set_sent].
  destruct flts as [| [] rest]; cbn [hd tl firstn forallb negb andb apply_stmt];
    cbn [faults alerts now set_faults set_sent set_alerts].
  - destruct (existsb (fun a => alert_id a =? id) als) eqn:E.
    + destruct (returning_ids id als E) as [ids ->]. cbn.
      repeat split; try discriminate; try reflexivity;
        match goal with
        | Ha : In ?a (map (resolve id nw) als), Ea : alert_id ?a = id |- _ =>
            apply (resolve_all id nw als a Ha Ea)
        end.
    + destruct (returning_none id als E) as [-> Hsame]. cbn.
      repeat split; try discriminate; try reflexivity. apply Hsame.
  - cbn. repeat split; try discriminate; reflexivity.
  - destruct (existsb (fun a => alert_id a =? id) als) eqn:E.
    + destruct (returning_ids id als E) as [ids ->]. cbn.
      repeat split; try discriminate; try reflexivity;
        match goal with
        | Ha : In ?a (map (resolve id nw) als), Ea : alert_id ?a = id |- _ =>
            apply (resolve_all id nw als a Ha Ea)
        end.
    + destruct (returning_none id als E) as [-> Hsame]. cbn.
      repeat split; try discriminate; try reflexivity. apply Hsame.
Qed.

(** A path variable the store does not read as an integer is answered with
    500, not with 404. *)
Lemma resolveAlert_invalid_id (int4in : string -> option Z) (alertID : string) (d : DB) :
  int4in alertID = None ->
  next_ok 1 d = true ->
  snd (resolveAlert int4in alertID d) =
    http_Error (ErrorText ErrInvalidText) StatusInternalServerError.
Proof.
  intros Hid Hok. unfold resolveAlert, send.
  rewrite Hid, (next_ok_hd 0 d Hok). reflexivity.
Qed.

Example C7_resolveAlert_not_found_witness :
  snd (resolveAlert read_decimal "7" critical_db)
    = http_Error (Text "Alert not found") StatusNotFound /\
  alerts (fst (resolveAlert read_decimal "7" critical_db)) = alerts critical_db /\
  StatusCode (snd (resolveAlert read_decimal "1" critical_db)) = StatusOK /\
  map alert_status (alerts (fst (resolveAlert read_decimal "1" critical_db))) = ["resolved"] /\
  StatusCode (snd (resolveAlert read_decimal "7" (failing critical_db)))
    = StatusInternalServerError.
Proof.
  pose proof (C7_resolveAlert_not_found read_decimal "7" 7 critical_db eq_refl) as H7.
  pose proof (C7_resolveAlert_not_found read_decimal "1" 1 critical_db eq_refl) as H1.
  pose proof (C7_resolveAlert_not_found read_decimal "7" 7 (failing critical_db) eq_refl) as HF.
  destruct (resolveAlert read_decimal "7" critical_db) as [d7 r7].
  destruct (resolveAlert read_decimal "1" critical_db) as [d1 r1].
  destruct (resolveAlert read_decimal "7" (failing critical_db)) as [dF rF].
  destruct H7 as [H7 _]. destruct (H7 eq_refl eq_refl) as [E7 [_ A7]].
  destruct H1 as [_ [H1 _]]. destruct (H1 eq_refl eq_refl) as [C1 [_ [A1 _]]].
  destruct HF as [_ [_ HF]]. destruct (HF eq_refl) as [EF _].
  cbn [fst snd]. rewrite E7, A7, C1, A1, EF. repeat split.
Defined.

(** ** The consumer loop *)

(** C8. A fetched message whose payload does not decode: the turn logs the
    error and hands the message to CommitMessages; the store is exactly as
    it was (no statement was sent: no metric, no alert, no action), and the
    loop goes on with the next turn. *)
Theorem C8_malformed_event_committed
    (Unmarshal : string -> GPUMetric + error)
    (msg : kafka_Message) (e : error) (rest : list Turn) (st : Engine) :
  Unmarshal (Value msg) = inr e ->
  let '(r, st') := Run_turn Unmarshal (Fetched msg) st in
  r = None /\
  db st' = db st /\
  commits st' = (commits st ++ [msg])%list /\
  log st' =
    (log st ++ [ {| format := "Error unmarshaling metric: %v"; args := [AErr e] |} ])%list /\
  Run_loop Unmarshal (Fetched msg :: rest) st = Run_loop Unmarshal rest st'.
Proof.
  intros H. cbn [Run_loop]. unfold bind at 1. unfold Run_turn. rewrite H.
  run_engine. repeat split; reflexivity.
Qed.

Example C8_malformed_event_committed_witness :
  let '(r, st') := Run_turn decode_empty_object (Fetched malformed) (engine_on (init_db 0)) in
  r = None /\ db st' = init_db 0 /\ commits st' = [malformed].
Proof.
  pose proof (C8_malformed_event_committed
                decode_empty_object malformed ErrUnmarshal [] (engine_on (init_db 0)) eq_refl) as H.
  destruct (Run_turn decode_empty_object (Fetched malformed) (engine_on (init_db 0))) as [r st'].
  destruct H as [Hr [Hdb [Hcommits _]]].
  repeat split; assumption.
Defined.

(** The loop on a malformed message, an empty object and a cancellation:
    both messages are committed, in order; the empty object names no node,
    so its metric is refused by the foreign key, and 0/0 is NaN, so it
    raises no alert; then [Run] returns nil with both handles closed. *)
Example Run_two_messages :
  let '(r, st') :=
    Run decode_empty_object [Fetched malformed; Fetched empty_object; CtxDone]
        (engine_on (init_db 0)) in
  r = Some None /\
  commits st' = [malformed; empty_object] /\
  sent (db st') = [InsertMetric zero_metric] /\
  gpu_metrics (db st') = [] /\ alerts (db st') = [] /\
  map format (log st') =
    ["Alert Engine started, consuming from Kafka...";
     "Error unmarshaling metric: %v";
     "Error storing metric: %v";
     "Alert Engine shutting down"] /\
  reader_closed st' = true /\ db_closed st' = true.
Proof. vm_compute. repeat split; reflexivity. Qed.

(** One turn on the sample of C4: the metric is stored, three alerts are
    created in rule order, each with its action, node-1 is degraded and
    node-2 is not, and the message is committed last. *)
Example Run_turn_hot_sample :
  let '(r, st') := Run_turn decode_hot (Fetched hot) (engine_on (init_db 0)) in
  r = None /\
  map (fun a => (alert_id a, AlertType (alert_columns a), alert_status a)) (alerts (db st'))
    = [(1, "high_temperature", "active"); (2, "high_power", "active");
       (3, "high_memory", "active")] /\
  map (fun r => (action_alert_id r, action_type r, action_status r)) (alert_actions (db st'))
    = [(1, "workload_migration", "executed"); (2, "notification", "executed");
       (3, "notification", "executed")] /\
  map (fun n => (node_id n, node_status n)) (gpu_nodes (db st'))
    = [("node-1", "degraded"); ("node-2", "healthy")] /\
  List.length (gpu_metrics (db st')) = 1%nat /\
  commits st' = [hot].
Proof. vm_compute. repeat split; reflexivity. Qed.

(** ** The loop and the reader *)

Lemma quiet_ret {A : Type} (a : A) : quiet (ret a).
Proof. intros st. repeat split. Qed.

Lemma quiet_bind {A B : Type} (c : M A) (k : A -> M B) :
  quiet c -> (forall a, quiet (k a)) -> quiet (bind c k).
Proof.
  intros Hc Hk st. unfold bind. specialize (Hc st).
  destruct (c st) as [a st1]. cbn [snd] in Hc. specialize (Hk a st1).
  destruct Hc as [C1 [C2 C3]], Hk as [K1 [K2 K3]].
  repeat split; congruence.
Qed.

Lemma quiet_log (fmt : string) (a : list Arg) : quiet (log_Printf fmt a).
Proof. intros st. repeat split. Qed.

Lemma quiet_with_db {A : Type} (f : DB -> DB * A) : quiet (with_db f).
Proof. intros st. unfold with_db. destruct (f (db st)). repeat split. Qed.

Lemma quiet_Exec (s : Stmt) : quiet (db_Exec s).
Proof. apply quiet_bind; [apply quiet_with_db | intros; apply quiet_ret]. Qed.

Lemma quiet_logged (err : option error) (fmt : string) :
  quiet (match err with Some e => log_Printf fmt [AErr e] | None => ret tt end).
Proof. destruct err; [apply quiet_log | apply quiet_ret]. Qed.

Lemma quiet_TakeAction (alertID : Z) (alert : Alert) : quiet (TakeAction alertID alert).
Proof.
  unfold TakeAction. apply quiet_bind; [| intros; apply quiet_Exec].
  destruct (Severity alert =? "critical")%string;
    [| destruct (Severity alert =? "warning")%string].
  - apply quiet_bind; [apply quiet_Exec | intros err].
    apply quiet_bind; [apply quiet_logged | intros _].
    apply quiet_bind; [apply quiet_log | intros; apply quiet_ret].
  - apply quiet_bind; [apply quiet_log | intros; apply quiet_ret].
  - apply quiet_ret.
Qed.

Lemma quiet_CreateAlert (alert : Alert) : quiet (CreateAlert alert).
Proof.
  unfold CreateAlert, db_QueryRow_Scan. apply quiet_bind.
  - apply quiet_bind; [apply quiet_with_db | intros; apply quiet_ret].
  - intros [alertID | err]; [| apply quiet_ret].
    apply quiet_bind; [apply quiet_log | intros; apply quiet_TakeAction].
Qed.

Lemma quiet_create_alerts (l : list Alert) : quiet (create_alerts l).
Proof.
  induction l as [| alert rest IH]; cbn [create_alerts]; [apply quiet_ret |].
  apply quiet_bind; [apply quiet_CreateAlert | intros err].
  apply quiet_bind; [apply quiet_logged | intros _; exact IH].
Qed.

(** The part of a turn on a decoded sample that comes before the commit. *)
Lemma quiet_pipeline (metric : GPUMetric) :
  quiet (bind (StoreMetric metric) (fun err =>
         bind (match err with
               | Some e => log_Printf "Error storing metric: %v" [AErr e]
               | None => ret tt
               end) (fun _ => create_alerts (EvaluateRules metric)))).
Proof.
  apply quiet_bind; [apply quiet_Exec | intros err].
  apply quiet_bind; [apply quiet_logged | intros _; apply quiet_create_alerts].
Qed.

(** One turn: what it returns and what it does to the reader. *)
Lemma Run_turn_reader (Unmarshal : string -> GPUMetric + error) (t : Turn) (st : Engine) :
  fst (Run_turn Unmarshal t st) = (if is_done t then Some None else None) /\
  commits (snd (Run_turn Unmarshal t st)) =
    (commits st ++ match t with Fetched msg => [msg] | _ => [] end)%list /\
  reader_closed (snd (Run_turn Unmarshal t st)) = (is_done t || reader_closed st)%bool /\
  db_closed (snd (Run_turn Unmarshal t st)) = (is_done t || db_closed st)%bool.
Proof.
  destruct t as [| e | msg]; cbn [Run_turn is_done orb].
  - run_engine. rewrite app_nil_r. repeat split.
  - run_engine. rewrite app_nil_r. repeat split.
  - destruct (Unmarshal (Value msg)) as [metric | e].
    + pose proof (quiet_pipeline metric st) as Hq. revert Hq.
      unfold bind.
      destruct (StoreMetric metric st) as [err st1].
      destruct ((match err with
                 | Some e => log_Printf "Error storing metric: %v" [AErr e]
                 | None => ret tt
                 end) st1) as [u st2].
      destruct (create_alerts (EvaluateRules metric) st2) as [u' st3].
      cbn [snd]. intros [C1 [C2 C3]].
      unfold CommitMessages, ret. cbn. rewrite C1, C2, C3. repeat split.
    + run_engine. repeat split.
Qed.

Lemma Run_loop_reader (Unmarshal : string -> GPUMetric + error) (turns : list Turn) :
  forall st,
    fst (Run_loop Unmarshal turns st) = (if existsb is_done turns then Some None else None) /\
    commits (snd (Run_loop Unmarshal turns st)) = (commits st ++ fetched_before_done turns)%list /\
    reader_closed (snd (Run_loop Unmarshal turns st))
      = (existsb is_done turns || reader_closed st)%bool /\
    db_closed (snd (Run_loop Unmarshal turns st))
      = (existsb is_done turns || db_closed st)%bool.
Proof.
  induction turns as [| t rest IH]; intros st; cbn [Run_loop existsb fetched_before_done].
  - unfold ret. cbn. rewrite app_nil_r. repeat split.
  - unfold bind. destruct (Run_turn_reader Unmarshal t st) as [R [C [RC DC]]].
    destruct (Run_turn Unmarshal t st) as [r st1]. cbn [fst snd] in R, C, RC, DC.
    destruct t as [| e | msg]; cbn [is_done orb] in *; subst r.
    + unfold ret. cbn [fst snd]. rewrite C, RC, DC. repeat split.
    + destruct (IH st1) as [R' [C' [RC' DC']]].
      rewrite R', C', RC', DC', C, RC, DC, app_nil_r. repeat split.
    + destruct (IH st1) as [R' [C' [RC' DC']]].
      rewrite R', C', RC', DC', C, RC, DC, <- app_assoc. repeat split.
Qed.

(** X1. Whatever the payloads decode to and whatever the store answers,
    [Run] hands to CommitMessages exactly the messages fetched before the
    context is done, each once, in the order they were fetched. *)
Theorem X1_every_fetched_message_committed
    (Unmarshal : string -> GPUMetric + error) (turns : list Turn) (st : Engine) :
  commits (snd (Run Unmarshal turns st)) = (commits st ++ fetched_before_done turns)%list.
Proof.
  unfold Run, bind, log_Printf.
  match goal with |- context [Run_loop Unmarshal turns ?s] =>
    destruct (Run_loop_reader Unmarshal turns s) as [_ [C _]]; exact C end.
Qed.

(** X2. [Run] returns only when the context is done, and then it returns
    nil with the reader and the store connection closed: no fetch error, no
    decode error and no store error makes it return or close anything. *)
Theorem X2_Run_returns_nil_on_cancellation_only
    (Unmarshal : string -> GPUMetric + error) (turns : list Turn) (st : Engine) :
  fst (Run Unmarshal turns st) = (if existsb is_done turns then Some None else None) /\
  reader_closed (snd (Run Unmarshal turns st)) = (existsb is_done turns || reader_closed st)%bool /\
  db_closed (snd (Run Unmarshal turns st)) = (existsb is_done turns || db_closed st)%bool.
Proof.
  unfold Run, bind, log_Printf.
  match goal with |- context [Run_loop Unmarshal turns ?s] =>
    destruct (Run_loop_reader Unmarshal turns s) as [R [_ [RC DC]]] end.
  repeat split; assumption.
Qed.

(** ** What the engine sends to the store *)

Lemma sends_only_ret {A : Type} (P : Stmt -> Prop) (a : A) : sends_only P (ret a).
Proof. intros I _ st H. exact H. Qed.

Lemma sends_only_bind {A B : Type} (P : Stmt -> Prop) (c : M A) (k : A -> M B) :
  sends_only P c -> (forall a, sends_only P (k a)) -> sends_only P (bind c k).
Proof.
  intros Hc Hk I HI st H. unfold bind. specialize (Hc I HI st H).
  destruct (c st) as [a st1]. exact (Hk a I HI st1 Hc).
Qed.

Lemma sends_only_bind_returns {A B : Type} (P : Stmt -> Prop) (Q : A -> Prop)
    (c : M A) (k : A -> M B) :
  sends_only P c -> returns Q c -> (forall a, Q a -> sends_only P (k a)) ->
  sends_only P (bind c k).
Proof.
  intros Hc Hq Hk I HI st H. unfold bind. specialize (Hc I HI st H). specialize (Hq st).
  destruct (c st) as [a st1]. exact (Hk a Hq I HI st1 Hc).
Qed.

Lemma returns_ret {A : Type} (Q : A -> Prop) (a : A) : Q a -> returns Q (ret a).
Proof. intros H st. exact H. Qed.

Lemma returns_bind {A B : Type} (Q : B -> Prop) (c : M A) (k : A -> M B) :
  (forall a, returns Q (k a)) -> returns Q (bind c k).
Proof. intros Hk st. unfold bind. destruct (c st) as [a st1]. apply Hk. Qed.

Lemma sends_only_log (P : Stmt -> Prop) (fmt : string) (a : list Arg) :
  sends_only P (log_Printf fmt a).
Proof. intros I _ st H. exact H. Qed.

Lemma sends_only_logged (P : Stmt -> Prop) (err : option error) (fmt : string) :
  sends_only P (match err with Some e => log_Printf fmt [AErr e] | None => ret tt end).
Proof. destruct err; [apply sends_only_log | apply sends_only_ret]. Qed.

Lemma sends_only_Commit (P : Stmt -> Prop) (msg : kafka_Message) :
  sends_only P (CommitMessages msg).
Proof. intros I _ st H. exact H. Qed.

Lemma sends_only_Close (P : Stmt -> Prop) : sends_only P Close.
Proof. intros I _ st H. exact H. Qed.

Lemma sends_only_send (P : Stmt -> Prop) (s : Stmt) :
  P s -> sends_only P (with_db (send s)).
Proof.
  intros Hs I HI st H. unfold with_db. specialize (HI s (db st) Hs H).
  destruct (send s (db st)) as [d r]. exact HI.
Qed.

Lemma sends_only_Exec (P : Stmt -> Prop) (s : Stmt) : P s -> sends_only P (db_Exec s).
Proof.
  intros Hs. apply sends_only_bind;
    [apply sends_only_send; exact Hs | intros; apply sends_only_ret].
Qed.

Lemma sends_only_TakeAction (alertID : Z) (alert : Alert) :
  known_severity alert -> sends_only engine_stmt (TakeAction alertID alert).
Proof.
  intros Hsev. unfold TakeAction.
  apply sends_only_bind_returns with
    (Q := fun action : string * JSON =>
            (fst action = "workload_migration" \/ fst action = "notification") /\
            snd action <> JNull).
  - destruct (Severity alert =? "critical")%string;
      [| destruct (Severity alert =? "warning")%string].
    + apply sends_only_bind; [apply sends_only_Exec; exact Logic.I | intros err].
      apply sends_only_bind; [apply sends_only_logged | intros _].
      apply sends_only_bind; [apply sends_only_log | intros; apply sends_only_ret].
    + apply sends_only_bind; [apply sends_only_log | intros; apply sends_only_ret].
    + apply sends_only_ret.
  - destruct (Severity alert =? "critical")%string eqn:Ec;
      [| destruct (Severity alert =? "warning")%string eqn:Ew].
    + apply returns_bind. intros err. apply returns_bind. intros _.
      apply returns_bind. intros _. apply returns_ret.
      split; [left; reflexivity | discriminate].
    + apply returns_bind. intros _. apply returns_ret.
      split; [right; reflexivity | discriminate].
    + apply String.eqb_neq in Ec. apply String.eqb_neq in Ew.
      destruct Hsev; contradiction.
  - intros action Haction. apply sends_only_Exec. exact Haction.
Qed.

Lemma sends_only_CreateAlert (alert : Alert) :
  known_severity alert -> sends_only engine_stmt (CreateAlert alert).
Proof.
  intros Hsev. unfold CreateAlert, db_QueryRow_Scan. apply sends_only_bind.
  - apply sends_only_bind; [apply sends_only_send; exact Hsev | intros; apply sends_only_ret].
  - intros [alertID | err]; [| apply sends_only_ret].
    apply sends_only_bind; [apply sends_only_log | intros _].
    apply sends_only_TakeAction. exact Hsev.
Qed.

Lemma sends_only_create_alerts (l : list Alert) :
  Forall known_severity l -> sends_only engine_stmt (create_alerts l).
Proof.
  induction 1 as [| alert rest Hsev _ IH]; cbn [create_alerts]; [apply sends_only_ret |].
  apply sends_only_bind; [apply sends_only_CreateAlert; exact Hsev | intros err].
  apply sends_only_bind; [apply sends_only_logged | intros _; exact IH].
Qed.

(** Every candidate is critical or warning, and only a temperature
    candidate is critical. *)
Lemma EvaluateRules_known_severity (metric : GPUMetric) :
  Forall known_severity (EvaluateRules metric).
Proof.
  rewrite EvaluateRules_eq. unfold known_severity, temperature_alert.
  destruct (F64.gt (TemperatureCelsius metric) f90),
           (F64.gt (PowerWatts metric) f330),
           (F64.gt (memoryPercent metric) f95),
           (F64.gt (TemperatureCelsius metric) f95); cbn;
    repeat first
      [ apply Forall_nil
      | apply Forall_cons; [first [left; reflexivity | right; reflexivity] |] ].
Qed.

Lemma sends_only_Run (Unmarshal : string -> GPUMetric + error) (turns : list Turn) :
  sends_only engine_stmt (Run Unmarshal turns).
Proof.
  unfold Run. apply sends_only_bind; [apply sends_only_log | intros _].
  induction turns as [| t rest IH]; cbn [Run_loop]; [apply sends_only_ret |].
  apply sends_only_bind; [| intros [result |]; [apply sends_only_ret | exact IH]].
  destruct t as [| e | msg]; cbn [Run_turn].
  - apply sends_only_bind; [apply sends_only_log | intros _].
    apply sends_only_bind; [apply sends_only_Close | intros; apply sends_only_ret].
  - apply sends_only_bind; [apply sends_only_log | intros; apply sends_only_ret].
  - destruct (Unmarshal (Value msg)) as [metric | e].
    + apply sends_only_bind; [apply sends_only_Exec; exact Logic.I | intros err].
      apply sends_only_bind; [apply sends_only_logged | intros _].
      apply sends_only_bind;
        [apply sends_only_create_alerts, EvaluateRules_known_severity | intros _].
      apply sends_only_bind; [apply sends_only_Commit | intros; apply sends_only_ret].
    + apply sends_only_bind; [apply sends_only_log | intros _].
      apply sends_only_bind; [apply sends_only_Commit | intros; apply sends_only_ret].
Qed.

Lemma appended_refl (d : DB) : appended d d.
Proof.
  repeat split; exists []; rewrite app_nil_r; try split; auto.
Qed.

Lemma appended_send (d0 : DB) (s : Stmt) (d : DB) :
  engine_stmt s -> appended d0 d -> appended d0 (fst (send s d)).
Proof.
  intros Hs [[ms Hm] [[als [Ha Hfa]] [acts [Hc Hfc]]]]. unfold send.
  destruct (hd false (faults d)).
  { repeat split; [exists ms | exists als | exists acts]; auto. }
  destruct s as [metric | alert | node | alertID actionType details | id]; cbn [apply_stmt].
  - change (node_exists (received _ d) ?n) with (node_exists d n).
    destruct (node_exists d (NodeID metric)); cbn.
    + repeat split; [| exists als | exists acts]; auto.
      eexists. rewrite Hm, <- app_assoc. reflexivity.
    + repeat split; [exists ms | exists als | exists acts]; auto.
  - change (node_exists (received _ d) ?n) with (node_exists d n).
    destruct (node_exists d (AlertNodeID alert)); cbn.
    + repeat split; [exists ms | | exists acts]; auto.
      eexists. rewrite Ha, <- app_assoc. split; [reflexivity |].
      apply Forall_app. split; [exact Hfa |].
      constructor; [| constructor]. repeat split. exact Hs.
    + repeat split; [exists ms | exists als | exists acts]; auto.
  - repeat split; [exists ms | exists als | exists acts]; auto.
  - change (alert_exists (received _ d) ?n) with (alert_exists d n).
    destruct Hs as [Hty Hdet].
    destruct (alert_exists d alertID); cbn.
    + repeat split; [exists ms | exists als |]; auto.
      eexists. rewrite Hc, <- app_assoc. split; [reflexivity |].
      apply Forall_app. split; [exact Hfc |].
      constructor; [| constructor]. repeat split; assumption.
    + repeat split; [exists ms | exists als | exists acts]; auto.
  - destruct Hs.
Qed.

(** X3. Whatever the turns, the payloads and the failures of the store,
    [Run] only appends to gpu_metrics, alerts and alert_actions: the rows
    that were there stay as they were and where they were. Every alert it
    adds is active, unresolved and critical or warning; every action it
    adds is a workload_migration or a notification, read as executed, with
    details that are not null. *)
Theorem X3_Run_appends_only
    (Unmarshal : string -> GPUMetric + error) (turns : list Turn) (st : Engine) :
  appended (db st) (db (snd (Run Unmarshal turns st))).
Proof.
  apply (sends_only_Run Unmarshal turns (appended (db st))).
  - intros s d. apply appended_send.
  - apply appended_refl.
Qed.

Lemma degraded_at_most_refl (n : NodeRow) : degraded_at_most n n.
Proof. repeat split. left. reflexivity. Qed.

Lemma degraded_at_most_degrade (node : string) (n0 n : NodeRow) :
  degraded_at_most n0 n -> degraded_at_most n0 (degrade node n).
Proof.
  intros H. unfold degrade. destruct (node_id n =? node)%string; [| exact H].
  destruct H as [H1 [H2 [H3 [H4 [H5 [H6 _]]]]]]. repeat split; cbn; try assumption.
  right. reflexivity.
Qed.

Lemma nodes_send (d0 : DB) (s : Stmt) (d : DB) :
  Forall2 degraded_at_most (gpu_nodes d0) (gpu_nodes d) ->
  Forall2 degraded_at_most (gpu_nodes d0) (gpu_nodes (fst (send s d))).
Proof.
  intros H. unfold send. destruct (hd false (faults d)); [exact H |].
  destruct s as [metric | alert | node | alertID actionType details | [id |]];
    cbn [apply_stmt].
  - destruct (node_exists _ _); exact H.
  - destruct (node_exists _ _); exact H.
  - cbn. induction H as [| n0 n l0 l Hn _ IH]; cbn; constructor.
    + apply degraded_at_most_degrade. exact Hn.
    + exact IH.
  - destruct (alert_exists _ _); exact H.
  - exact H.
  - exact H.
Qed.

(** X4. Whatever the turns, the payloads and the failures of the store,
    [Run] leaves the nodes table with the same rows in the same order, each
    with the key, node id, hostname, datacenter, last_seen and created_at it
    had; a status is either what it was or degraded. So [Run] never adds or
    drops a node, never advances last_seen and never brings a degraded node
    back to another status. *)
Theorem X4_Run_only_degrades_nodes
    (Unmarshal : string -> GPUMetric + error) (turns : list Turn) (st : Engine) :
  Forall2 degraded_at_most (gpu_nodes (db st)) (gpu_nodes (db (snd (Run Unmarshal turns st)))).
Proof.
  apply (sends_only_Run Unmarshal turns
           (fun d => Forall2 degraded_at_most (gpu_nodes (db st)) (gpu_nodes d))).
  - intros s d _. apply nodes_send.
  - induction (gpu_nodes (db st)); constructor; [apply degraded_at_most_refl | assumption].
Qed.

(** ** CreateAlert and TakeAction when a statement is refused *)

(** X5. When the INSERT of the alert is refused, by a failure of the store
    or because the alert's node is not in gpu_nodes, [CreateAlert] returns
    that error and stops there: the INSERT is the only statement sent, no
    node is updated, no alert and no action is recorded, nothing is
    logged. *)
Theorem X5_CreateAlert_stops_on_refused_insert (alert : Alert) (st : Engine) :
  hd false (faults (db st)) = true \/ node_exists (db st) (AlertNodeID alert) = false ->
  let '(err, st') := CreateAlert alert st in
  err = Some (if hd false (faults (db st)) then ErrStore else ErrForeignKey "alerts") /\
  sent (db st') = (sent (db st) ++ [InsertAlert alert])%list /\
  gpu_nodes (db st') = gpu_nodes (db st) /\
  alerts (db st') = alerts (db st) /\
  alert_actions (db st') = alert_actions (db st) /\
  log st' = log st.
Proof.
  intros H. unfold CreateAlert.
  destruct st as [[nodes metrics als acts mseq aseq cseq nw flts snt] cms rc dc lg].
  unfold node_exists in H. cbn in H.
  run_engine. unfold send, received, node_exists.
  destruct flts as [| [] rest]; cbn in H |- *.
  - destruct H as [H | H]; [discriminate |]. rewrite H. cbn. repeat split.
  - repeat split.
  - destruct H as [H | H]; [discriminate |]. rewrite H. cbn. repeat split.
Qed.

Example X5_CreateAlert_stops_on_refused_insert_witness :
  let '(err, st') := CreateAlert stray_alert (engine_on (init_db 0)) in
  err = Some (ErrForeignKey "alerts") /\
  sent (db st') = [InsertAlert stray_alert] /\
  alerts (db st') = [] /\ alert_actions (db st') = [].
Proof.
  pose proof (X5_CreateAlert_stops_on_refused_insert
                stray_alert (engine_on (init_db 0)) (or_intror eq_refl)) as H.
  destruct (CreateAlert stray_alert (engine_on (init_db 0))) as [err st'].
  destruct H as [Herr [Hsent [_ [Hal [Hac _]]]]].
  repeat split; assumption.
Defined.

(** X6. A critical alert, a store that runs the UPDATE of the node and then
    refuses the INSERT of the action (it fails, or the alert id is not in
    alerts): [TakeAction] returns the error of the INSERT, no action is
    recorded, and the node stays degraded all the same. Nothing undoes the
    UPDATE. *)
Theorem X6_TakeAction_does_not_roll_back (alertID : Z) (alert : Alert) (st : Engine) :
  Severity alert = "critical" ->
  hd false (faults (db st)) = false ->
  hd false (tl (faults (db st))) = true \/ alert_exists (db st) alertID = false ->
  let '(err, st') := TakeAction alertID alert st in
  err = Some (if hd false (tl (faults (db st))) then ErrStore
              else ErrForeignKey "alert_actions") /\
  gpu_nodes (db st') = map (degrade (AlertNodeID alert)) (gpu_nodes (db st)) /\
  (forall n, In n (gpu_nodes (db st')) ->
             node_id n = AlertNodeID alert -> node_status n = "degraded") /\
  alert_actions (db st') = alert_actions (db st).
Proof.
  intros H F1 F2. unfold TakeAction. rewrite H.
  change ("critical" =? "critical")%string with true.
  cbv beta iota.
  destruct st as [[nodes metrics als acts mseq aseq cseq nw flts snt] cms rc dc lg].
  unfold alert_exists in F2. cbn in F1, F2.
  run_engine. unfold send, received, alert_exists.
  destruct flts as [| [] [| [] rest]]; cbn in F1, F2 |- *; try discriminate;
    try (destruct F2 as [F2 | F2]; [discriminate |]; rewrite F2; cbn);
    repeat split; try apply degrade_all.
Qed.

Example X6_TakeAction_does_not_roll_back_witness :
  let '(err, st') := TakeAction 7 critical_alert (engine_on (init_db 0)) in
  err = Some (ErrForeignKey "alert_actions") /\
  map node_status (gpu_nodes (db st')) = ["degraded"; "healthy"] /\
  alert_actions (db st') = [].
Proof.
  pose proof (X6_TakeAction_does_not_roll_back
                7 critical_alert (engine_on (init_db 0)) eq_refl eq_refl
                (or_intror eq_refl)) as H.
  destruct (TakeAction 7 critical_alert (engine_on (init_db 0))) as [err st'].
  destruct H as [Herr [Hnodes [_ Hacts]]].
  rewrite Hnodes. repeat split; assumption.
Defined.

(** ** A store that runs every statement *)

Lemma node_exists_ids (d d' : DB) (node : string) :
  map node_id (gpu_nodes d') = map node_id (gpu_nodes d) ->
  node_exists d' node = node_exists d node.
Proof.
  unfold node_exists. intros H.
  assert (E : forall l, existsb (fun n => (node_id n =? node)%string) l
                        = existsb (fun i => (i =? node)%string) (map node_id l)).
  { induction l as [| n l IH]; cbn; [reflexivity | rewrite IH; reflexivity]. }
  rewrite !E, H. reflexivity.
Qed.

Lemma map_degrade_ids (node : string) (l : list NodeRow) :
  map node_id (map (degrade node) l) = map node_id l.
Proof.
  rewrite map_map. apply map_ext. intros n. unfold degrade.
  destruct (node_id n =? node)%string; reflexivity.
Qed.

(** One alert through [CreateAlert] on a store without failures, for a
    node of the table. *)
Lemma CreateAlert_healthy (alert : Alert) (st : Engine) :
  faults (db st) = [] ->
  node_exists (db st) (AlertNodeID alert) = true ->
  fst (CreateAlert alert st) = None /\
  faults (db (snd (CreateAlert alert st))) = [] /\
  now (db (snd (CreateAlert alert st))) = now (db st) /\
  map node_id (gpu_nodes (db (snd (CreateAlert alert st)))) = map node_id (gpu_nodes (db st)) /\
  gpu_metrics (db (snd (CreateAlert alert st))) = gpu_metrics (db st) /\
  alerts (db (snd (CreateAlert alert st)))
    = (alerts (db st) ++ alert_rows (alerts_id_seq (db st)) (now (db st)) [alert])%list /\
  alerts_id_seq (db (snd (CreateAlert alert st))) = alerts_id_seq (db st) + 1 /\
  alert_actions (db (snd (CreateAlert alert st)))
    = (alert_actions (db st) ++
       action_rows (alert_actions_id_seq (db st)) (alerts_id_seq (db st)) (now (db st)) [alert])%list /\
  alert_actions_id_seq (db (snd (CreateAlert alert st))) = alert_actions_id_seq (db st) + 1 /\
  commits (snd (CreateAlert alert st)) = commits st.
Proof.
  intros Hf Hnode. unfold CreateAlert, TakeAction, action_of.
  destruct st as [[nodes metrics als acts mseq aseq cseq nw flts snt] cms rc dc lg].
  unfold node_exists in Hnode. cbn in Hf, Hnode. subst flts.
  assert (Hnew : existsb (fun a => alert_id a =? aseq)
                   (als ++ [{| alert_id := aseq; alert_columns := alert;
                               alert_status := "active"; triggered_at := nw;
                               resolved_at := None |}]) = true).
  { rewrite existsb_app. cbn. rewrite Z.eqb_refl, orb_true_r. reflexivity. }
  run_engine. unfold send, received, alert_exists, node_exists. cbn.
  rewrite Hnode. cbn.
  destruct (Severity alert =? "critical")%string eqn:Ec;
    [| destruct (Severity alert =? "warning")%string eqn:Ew];
    cbn; rewrite Hnew; cbn; unfold action_of; rewrite Ec, ?Ew;
    repeat split; try reflexivity.
  apply map_degrade_ids.
Qed.

Lemma alert_rows_app (id : Z) (at_ : Time) (l1 l2 : list Alert) :
  alert_rows id at_ (l1 ++ l2) =
    (alert_rows id at_ l1 ++ alert_rows (id + Z.of_nat (List.length l1)) at_ l2)%list.
Proof.
  revert id. induction l1 as [| a l1 IH]; intros id; cbn [alert_rows app List.length].
  - rewrite Z.add_0_r. reflexivity.
  - rewrite IH.
    replace (id + Z.of_nat (S (List.length l1))) with (id + 1 + Z.of_nat (List.length l1)) by lia.
    reflexivity.
Qed.

Lemma action_rows_app (pk id : Z) (at_ : Time) (l1 l2 : list Alert) :
  action_rows pk id at_ (l1 ++ l2) =
    (action_rows pk id at_ l1 ++
     action_rows (pk + Z.of_nat (List.length l1)) (id + Z.of_nat (List.length l1)) at_ l2)%list.
Proof.
  revert pk id. induction l1 as [| a l1 IH]; intros pk id; cbn [action_rows app List.length].
  - rewrite !Z.add_0_r. reflexivity.
  - rewrite IH.
    replace (id + Z.of_nat (S (List.length l1))) with (id + 1 + Z.of_nat (List.length l1)) by lia.
    replace (pk + Z.of_nat (S (List.length l1))) with (pk + 1 + Z.of_nat (List.length l1)) by lia.
    reflexivity.
Qed.

Lemma created_nil (d : DB) : faults d = [] -> created [] d d.
Proof.
  intros H. unfold created. cbn. rewrite !app_nil_r, !Z.add_0_r. repeat split. exact H.
Qed.

Lemma created_cons (a : Alert) (l : list Alert) (d d1 d2 : DB) :
  created [a] d d1 -> created l d1 d2 -> created (a :: l) d d2.
Proof.
  intros [F1 [N1 [I1 [M1 [A1 [S1 [C1 T1]]]]]]] [F2 [N2 [I2 [M2 [A2 [S2 [C2 T2]]]]]]].
  change (a :: l) with ([a] ++ l)%list.
  unfold created. rewrite alert_rows_app, action_rows_app, length_app.
  rewrite F2, N2, I2, M2, A2, S2, C2, T2, N1, I1, M1, A1, S1, C1, T1, <- !app_assoc.
  cbn [List.length]. repeat split; lia.
Qed.

Lemma create_alerts_healthy (l : list Alert) :
  forall st,
    faults (db st) = [] ->
    Forall (fun a => node_exists (db st) (AlertNodeID a) = true) l ->
    created l (db st) (db (snd (create_alerts l st))) /\
    commits (snd (create_alerts l st)) = commits st.
Proof.
  induction l as [| a l IH]; intros st Hf Hnodes; cbn [create_alerts].
  - split; [apply created_nil; exact Hf | reflexivity].
  - inversion Hnodes as [| a' l' Ha Hl]; subst a' l'.
    destruct (CreateAlert_healthy a st Hf Ha)
      as [Herr [F1 [N1 [I1 [M1 [A1 [S1 [C1 [T1 K1]]]]]]]]].
    unfold bind. destruct (CreateAlert a st) as [err st1]. cbn [fst snd] in *. subst err.
    change (ret tt st1) with (tt, st1). cbv beta iota.
    assert (Hl1 : Forall (fun a => node_exists (db st1) (AlertNodeID a) = true) l).
    { apply Forall_impl with (2 := Hl). intros a0 H0.
      rewrite (node_exists_ids (db st) (db st1) _ I1). exact H0. }
    destruct (IH st1 F1 Hl1) as [Hcr Hco]. split; [| congruence].
    apply created_cons with (d1 := db st1); [| exact Hcr].
    unfold created. cbn [List.length Z.of_nat Pos.of_succ_nat]. repeat split; assumption.
Qed.

Lemma EvaluateRules_node (metric : GPUMetric) :
  Forall (fun a => AlertNodeID a = NodeID metric) (EvaluateRules metric).
Proof.
  rewrite EvaluateRules_eq.
  destruct (F64.gt (TemperatureCelsius metric) f90),
           (F64.gt (PowerWatts metric) f330),
           (F64.gt (memoryPercent metric) f95); repeat constructor.
Qed.

(** [StoreMetric] on a store that runs every statement after this one. *)
Lemma StoreMetric_step (metric : GPUMetric) (st : Engine) :
  node_exists (db st) (NodeID metric) = true ->
  tl (faults (db st)) = [] ->
  faults (db (snd (StoreMetric metric st))) = [] /\
  now (db (snd (StoreMetric metric st))) = now (db st) /\
  gpu_nodes (db (snd (StoreMetric metric st))) = gpu_nodes (db st) /\
  alerts (db (snd (StoreMetric metric st))) = alerts (db st) /\
  alerts_id_seq (db (snd (StoreMetric metric st))) = alerts_id_seq (db st) /\
  alert_actions (db (snd (StoreMetric metric st))) = alert_actions (db st) /\
  alert_actions_id_seq (db (snd (StoreMetric metric st))) = alert_actions_id_seq (db st) /\
  commits (snd (StoreMetric metric st)) = commits st /\
  gpu_metrics (db (snd (StoreMetric metric st))) =
    (if hd false (faults (db st)) then gpu_metrics (db st)
     else gpu_metrics (db st) ++
          [{| metric_pk := gpu_metrics_id_seq (db st); metric_columns := metric |}])%list.
Proof.
  intros Hnode Hf.
  destruct st as [[nodes metrics als acts mseq aseq cseq nw flts snt] cms rc dc lg].
  unfold node_exists in Hnode. cbn in Hnode, Hf.
  run_engine. unfold send, received, node_exists.
  destruct flts as [| [] rest]; cbn in Hf |- *; subst; rewrite ?Hnode; cbn; repeat split.
Qed.

Lemma logged_frame (err : option error) (fmt : string) (st : Engine) :
  db (snd ((match err with Some e => log_Printf fmt [AErr e] | None => ret tt end) st)) = db st /\
  commits (snd ((match err with Some e => log_Printf fmt [AErr e] | None => ret tt end) st))
    = commits st.
Proof. destruct err; split; reflexivity. Qed.

(** One turn on a decoded sample of a node of the table, on a store that
    runs every statement after the INSERT of the metric. *)
Lemma Run_turn_created
    (Unmarshal : string -> GPUMetric + error)
    (msg : kafka_Message) (metric : GPUMetric) (st : Engine) :
  Unmarshal (Value msg) = inl metric ->
  node_exists (db st) (NodeID metric) = true ->
  tl (faults (db st)) = [] ->
  let st' := snd (Run_turn Unmarshal (Fetched msg) st) in
  faults (db st') = [] /\
  now (db st') = now (db st) /\
  map node_id (gpu_nodes (db st')) = map node_id (gpu_nodes (db st)) /\
  gpu_metrics (db st') =
    (if hd false (faults (db st)) then gpu_metrics (db st)
     else gpu_metrics (db st) ++
          [{| metric_pk := gpu_metrics_id_seq (db st); metric_columns := metric |}])%list /\
  alerts (db st') =
    (alerts (db st) ++
     alert_rows (alerts_id_seq (db st)) (now (db st)) (EvaluateRules metric))%list /\
  alerts_id_seq (db st') =
    alerts_id_seq (db st) + Z.of_nat (List.length (EvaluateRules metric)) /\
  alert_actions (db st') =
    (alert_actions (db st) ++
     action_rows (alert_actions_id_seq (db st)) (alerts_id_seq (db st)) (now (db st))
       (EvaluateRules metric))%list /\
  alert_actions_id_seq (db st') =
    alert_actions_id_seq (db st) + Z.of_nat (List.length (EvaluateRules metric)) /\
  commits st' = (commits st ++ [msg])%list.
Proof.
  intros Hdec Hnode Hf. cbn [Run_turn]. rewrite Hdec. unfold bind.
  destruct (StoreMetric_step metric st Hnode Hf)
    as [F1 [N1 [G1 [A1 [S1 [C1 [T1 [K1 M1]]]]]]]].
  destruct (StoreMetric metric st) as [err st1]. cbn [snd] in *.
  destruct (logged_frame err "Error storing metric: %v" st1) as [D2 K2].
  destruct ((match err with
             | Some e => log_Printf "Error storing metric: %v" [AErr e]
             | None => ret tt
             end) st1) as [u st2]. cbn [snd] in *.
  assert (Hnodes : Forall (fun a => node_exists (db st2) (AlertNodeID a) = true)
                          (EvaluateRules metric)).
  { apply Forall_impl with (2 := EvaluateRules_node metric). intros a ->.
    rewrite D2. rewrite (node_exists_ids (db st) (db st1)); [exact Hnode | congruence]. }
  assert (F2 : faults (db st2) = []) by congruence.
  destruct (create_alerts_healthy (EvaluateRules metric) st2 F2 Hnodes)
    as [[F3 [N3 [I3 [M3 [A3 [S3 [C3 T3]]]]]]] K3].
  destruct (create_alerts (EvaluateRules metric) st2) as [u' st3]. cbn [snd] in *.
  unfold CommitMessages, ret. cbn. rewrite D2 in *.
  rewrite F3, N3, I3, M3, A3, S3, C3, T3, K3, K2, K1, N1, G1, A1, S1, C1, T1, M1.
  repeat split.
Qed.

(** X7. A decoded sample of a node of gpu_nodes, on a store that runs every
    statement after the INSERT of the metric. Whether that INSERT fails or
    not, the turn records exactly the candidates of [EvaluateRules]: one
    active alert row each, in rule order, with consecutive ids from the
    next value of the sequence, and one action row each, of the type and
    details of its severity; then the message is committed. The metric row
    is there exactly when its INSERT did not fail. *)
Theorem X7_turn_records_the_candidates
    (Unmarshal : string -> GPUMetric + error)
    (msg : kafka_Message) (metric : GPUMetric) (st : Engine) :
  Unmarshal (Value msg) = inl metric ->
  node_exists (db st) (NodeID metric) = true ->
  tl (faults (db st)) = [] ->
  let st' := snd (Run_turn Unmarshal (Fetched msg) st) in
  gpu_metrics (db st') =
    (if hd false (faults (db st)) then gpu_metrics (db st)
     else gpu_metrics (db st) ++
          [{| metric_pk := gpu_metrics_id_seq (db st); metric_columns := metric |}])%list /\
  alerts (db st') =
    (alerts (db st) ++
     alert_rows (alerts_id_seq (db st)) (now (db st)) (EvaluateRules metric))%list /\
  alert_actions (db st') =
    (alert_actions (db st) ++
     action_rows (alert_actions_id_seq (db st)) (alerts_id_seq (db st)) (now (db st))
       (EvaluateRules metric))%list /\
  commits st' = (commits st ++ [msg])%list.
Proof.
  intros Hdec Hnode Hf st'.
  destruct (Run_turn_created Unmarshal msg metric st Hdec Hnode Hf)
    as [_ [_ [_ [M [A [_ [C [_ K]]]]]]]].
  repeat split; assumption.
Qed.

Example X7_turn_records_the_candidates_witness :
  let st' := snd (Run_turn decode_hot (Fetched hot) (engine_on (failing (init_db 0)))) in
  gpu_metrics (db st') = [] /\
  map (fun a => (alert_id a, AlertType (alert_columns a), Severity (alert_columns a)))
      (alerts (db st'))
    = [(1, "high_temperature", "critical"); (2, "high_power", "warning");
       (3, "high_memory", "warning")] /\
  map (fun r => (action_alert_id r, action_type r)) (alert_actions (db st'))
    = [(1, "workload_migration"); (2, "notification"); (3, "notification")] /\
  commits st' = [hot].
Proof.
  pose proof (X7_turn_records_the_candidates decode_hot hot
                (sample "node-1" 0 (F64.of_Z 96) (F64.of_Z 340) (F64.of_Z 78000) (F64.of_Z 80000))
                (engine_on (failing (init_db 0))) eq_refl eq_refl eq_refl) as H.
  cbv zeta in H |- *.
  destruct H as [M [A [C K]]]. rewrite M, A, C, K.
  repeat split; vm_compute; reflexivity.
Defined.

Lemma alert_rows_columns (id : Z) (at_ : Time) (l : list Alert) :
  map alert_columns (alert_rows id at_ l) = l.
Proof.
  revert id. induction l as [| a l IH]; intros id; cbn; [reflexivity |].
  rewrite IH. reflexivity.
Qed.

Lemma alert_rows_ids (id : Z) (at_ : Time) (l : list Alert) (a : AlertRow) :
  In a (alert_rows id at_ l) -> id <= alert_id a < id + Z.of_nat (List.length l).
Proof.
  revert id. induction l as [| x l IH]; intros id; cbn [alert_rows In List.length].
  - intros [].
  - intros [<- | H]; cbn [alert_id]; [lia |]. specialize (IH (id + 1) H). lia.
Qed.

Lemma alert_rows_NoDup (id : Z) (at_ : Time) (l : list Alert) :
  NoDup (map alert_id (alert_rows id at_ l)).
Proof.
  revert id. induction l as [| x l IH]; intros id; cbn; constructor.
  - intros H. apply in_map_iff in H. destruct H as [a [E Ha]].
    apply alert_rows_ids in Ha. lia.
  - apply IH.
Qed.

(** X8. The same decodable message delivered twice, for a node of
    gpu_nodes and on a store without failures: nothing is deduplicated.
    The alerts table gains the candidates of the sample twice over, with
    the same columns both times and ids that are all different, and both
    deliveries are committed. *)
Theorem X8_redelivery_duplicates_alerts
    (Unmarshal : string -> GPUMetric + error)
    (msg : kafka_Message) (metric : GPUMetric) (st : Engine) :
  Unmarshal (Value msg) = inl metric ->
  node_exists (db st) (NodeID metric) = true ->
  faults (db st) = [] ->
  let st' := snd (Run_loop Unmarshal [Fetched msg; Fetched msg] st) in
  exists rows,
    alerts (db st') = (alerts (db st) ++ rows)%list /\
    map alert_columns rows = (EvaluateRules metric ++ EvaluateRules metric)%list /\
    NoDup (map alert_id rows) /\
    commits st' = (commits st ++ [msg; msg])%list.
Proof.
  intros Hdec Hnode Hf st'. subst st'.
  assert (Hf0 : tl (faults (db st)) = []) by (rewrite Hf; reflexivity).
  pose proof (Run_turn_created Unmarshal msg metric st Hdec Hnode Hf0) as H1.
  pose proof (Run_turn_reader Unmarshal (Fetched msg) st) as [R1 _].
  cbn [Run_loop]. unfold bind.
  destruct (Run_turn Unmarshal (Fetched msg) st) as [r1 st1].
  cbn [fst snd is_done] in H1, R1. subst r1.
  destruct H1 as [F1 [N1 [I1 [_ [A1 [S1 [_ [_ K1]]]]]]]].
  assert (Hnode1 : node_exists (db st1) (NodeID metric) = true).
  { rewrite (node_exists_ids (db st) (db st1) _ I1). exact Hnode. }
  assert (Hf1 : tl (faults (db st1)) = []) by (rewrite F1; reflexivity).
  pose proof (Run_turn_created Unmarshal msg metric st1 Hdec Hnode1 Hf1) as H2.
  pose proof (Run_turn_reader Unmarshal (Fetched msg) st1) as [R2 _].
  destruct (Run_turn Unmarshal (Fetched msg) st1) as [r2 st2].
  cbn [fst snd is_done] in H2, R2. subst r2. unfold ret. cbn [snd].
  destruct H2 as [_ [_ [_ [_ [A2 [_ [_ [_ K2]]]]]]]].
  exists (alert_rows (alerts_id_seq (db st)) (now (db st))
            (EvaluateRules metric ++ EvaluateRules metric)).
  repeat split.
  - rewrite A2, A1, S1, N1, alert_rows_app, <- app_assoc. reflexivity.
  - apply alert_rows_columns.
  - apply alert_rows_NoDup.
  - rewrite K2, K1, <- app_assoc. reflexivity.
Qed.

Example X8_redelivery_duplicates_alerts_witness :
  map (fun a => AlertType (alert_columns a))
      (alerts (db (snd (Run_loop decode_hot [Fetched hot; Fetched hot] (engine_on (init_db 0))))))
    = ["high_temperature"; "high_power"; "high_memory";
       "high_temperature"; "high_power"; "high_memory"].
Proof.
  destruct (X8_redelivery_duplicates_alerts decode_hot hot
              (sample "node-1" 0 (F64.of_Z 96) (F64.of_Z 340) (F64.of_Z 78000) (F64.of_Z 80000))
              (engine_on (init_db 0)) eq_refl eq_refl eq_refl)
    as [rows [A [C _]]].
  rewrite A. cbn [app init_db engine_on db alerts].
  rewrite <- (map_map alert_columns AlertType), C.
  vm_compute. reflexivity.
Defined.

(** ** Invariants of the loop *)

Lemma maintains_ret {A : Type} (I : DB -> Prop) (a : A) : maintains I (ret a).
Proof. intros st H. exact H. Qed.

Lemma maintains_bind {A B : Type} (I : DB -> Prop) (c : M A) (k : A -> M B) :
  maintains I c -> (forall a, maintains I (k a)) -> maintains I (bind c k).
Proof.
  intros Hc Hk st H. unfold bind. specialize (Hc st H).
  destruct (c st) as [a st1]. exact (Hk a st1 Hc).
Qed.

Lemma maintains_log (I : DB -> Prop) (fmt : string) (a : list Arg) :
  maintains I (log_Printf fmt a).
Proof. intros st H. exact H. Qed.

Lemma maintains_logged (I : DB -> Prop) (err : option error) (fmt : string) :
  maintains I (match err with Some e => log_Printf fmt [AErr e] | None => ret tt end).
Proof. destruct err; [apply maintains_log | apply maintains_ret]. Qed.

(** What [StoreMetric] and [CreateAlert] keep, the whole loop keeps. *)
Lemma maintains_Run (I : DB -> Prop) :
  (forall metric, maintains I (StoreMetric metric)) ->
  (forall alert, maintains I (CreateAlert alert)) ->
  forall (Unmarshal : string -> GPUMetric + error) (turns : list Turn),
    maintains I (Run Unmarshal turns).
Proof.
  intros HS HC Unmarshal turns.
  assert (Hs : forall l, maintains I (create_alerts l)).
  { induction l as [| a l IH]; cbn [create_alerts]; [apply maintains_ret |].
    apply maintains_bind; [apply HC | intros err].
    apply maintains_bind; [apply maintains_logged | intros _; exact IH]. }
  unfold Run. apply maintains_bind; [apply maintains_log | intros _].
  induction turns as [| t rest IH]; cbn [Run_loop]; [apply maintains_ret |].
  apply maintains_bind; [| intros [result |]; [apply maintains_ret | exact IH]].
  destruct t as [| e | msg]; cbn [Run_turn].
  - apply maintains_bind; [apply maintains_log | intros _].
    apply maintains_bind; [intros st H; exact H | intros; apply maintains_ret].
  - apply maintains_bind; [apply maintains_log | intros; apply maintains_ret].
  - destruct (Unmarshal (Value msg)) as [metric | e].
    + apply maintains_bind; [apply HS | intros err].
      apply maintains_bind; [apply maintains_logged | intros _].
      apply maintains_bind; [apply Hs | intros _].
      apply maintains_bind; [intros st H; exact H | intros; apply maintains_ret].
    + apply maintains_bind; [apply maintains_log | intros _].
      apply maintains_bind; [intros st H; exact H | intros; apply maintains_ret].
Qed.

(** [StoreMetric] leaves the alerts and the actions alone, and a schedule
    without failures stays one. *)
Lemma StoreMetric_frame (metric : GPUMetric) (st : Engine) :
  gpu_nodes (db (snd (StoreMetric metric st))) = gpu_nodes (db st) /\
  alerts (db (snd (StoreMetric metric st))) = alerts (db st) /\
  alert_actions (db (snd (StoreMetric metric st))) = alert_actions (db st) /\
  commits (snd (StoreMetric metric st)) = commits st /\
  (faults (db st) = [] -> faults (db (snd (StoreMetric metric st))) = []) /\
  (node_exists (db st) (NodeID metric) = false ->
   gpu_metrics (db (snd (StoreMetric metric st))) = gpu_metrics (db st)).
Proof.
  destruct st as [[nodes metrics als acts mseq aseq cseq nw flts snt] cms rc dc lg].
  run_engine. unfold send, received, node_exists. cbn.
  destruct flts as [| [] rest]; cbn;
    try (destruct (existsb _ nodes); cbn);
    repeat split; intros; try reflexivity; discriminate.
Qed.

(** What [CreateAlert] can do to the alerts and the actions, whatever the
    alert and the failures: nothing, or one alert row under the next id of
    the sequence followed by at most one action row for that id. *)
Lemma CreateAlert_shape (alert : Alert) (st : Engine) :
  let d := db st in
  let d' := db (snd (CreateAlert alert st)) in
  (alerts d' = alerts d /\ alert_actions d' = alert_actions d) \/
  (alerts d' = (alerts d ++ alert_rows (alerts_id_seq d) (now d) [alert])%list /\
   (alert_actions d' = alert_actions d \/
    exists r, alert_actions d' = (alert_actions d ++ [r])%list /\
              action_alert_id r = alerts_id_seq d)).
Proof.
  unfold CreateAlert, TakeAction.
  destruct st as [[nodes metrics als acts mseq aseq cseq nw flts snt] cms rc dc lg].
  assert (Hnew : existsb (fun a => alert_id a =? aseq)
                   (als ++ [{| alert_id := aseq; alert_columns := alert;
                               alert_status := "active"; triggered_at := nw;
                               resolved_at := None |}]) = true).
  { rewrite existsb_app. cbn. rewrite Z.eqb_refl, orb_true_r. reflexivity. }
  run_engine. unfold send, received, alert_exists, node_exists. cbn.
  destruct (existsb (fun n => (node_id n =? AlertNodeID alert)%string) nodes);
    destruct (Severity alert =? "critical")%string;
    try destruct (Severity alert =? "warning")%string;
    destruct flts as [| [] [| b2 [| b3 rest]]]; try destruct b2; try destruct b3; cbn;
    rewrite ?Hnew; cbn;
    first
      [ left; split; reflexivity
      | right; split; [reflexivity | left; reflexivity]
      | right; split; [reflexivity | right; eexists; split; reflexivity] ].
Qed.

Lemma CreateAlert_refused (alert : Alert) (st : Engine) :
  node_exists (db st) (AlertNodeID alert) = false ->
  gpu_nodes (db (snd (CreateAlert alert st))) = gpu_nodes (db st) /\
  gpu_metrics (db (snd (CreateAlert alert st))) = gpu_metrics (db st) /\
  alerts (db (snd (CreateAlert alert st))) = alerts (db st) /\
  alert_actions (db (snd (CreateAlert alert st))) = alert_actions (db st) /\
  commits (snd (CreateAlert alert st)) = commits st /\
  (faults (db st) = [] -> faults (db (snd (CreateAlert alert st))) = []).
Proof.
  intros H. unfold CreateAlert.
  destruct st as [[nodes metrics als acts mseq aseq cseq nw flts snt] cms rc dc lg].
  unfold node_exists in H. cbn in H.
  run_engine. unfold send, received, node_exists. cbn.
  destruct flts as [| [] rest]; cbn; rewrite ?H; cbn;
    repeat split; intros; try reflexivity; discriminate.
Qed.

Lemma actions_of_same (d d' : DB) (id : Z) :
  alert_actions d' = alert_actions d -> actions_of id d' = actions_of id d.
Proof. unfold actions_of. intros ->. reflexivity. Qed.

Lemma actions_of_app (d d' : DB) (id : Z) (new : list ActionRow) :
  alert_actions d' = (alert_actions d ++ new)%list ->
  actions_of id d' = (actions_of id d ++ filter (fun r => action_alert_id r =? id) new)%list.
Proof. unfold actions_of. intros ->. apply filter_app. Qed.

Lemma preserves_StoreMetric (metric : GPUMetric) : preserves (StoreMetric metric).
Proof. apply preserves_Exec. Qed.

(** X9. A decoded sample whose node is not in gpu_nodes: whatever the
    failures of the store, the turn leaves the four tables as they were
    (the foreign keys refuse the metric and every alert, so no node is
    degraded and no action recorded) and commits the message all the
    same. *)
Theorem X9_unknown_node_dropped_and_committed
    (Unmarshal : string -> GPUMetric + error)
    (msg : kafka_Message) (metric : GPUMetric) (st : Engine) :
  Unmarshal (Value msg) = inl metric ->
  node_exists (db st) (NodeID metric) = false ->
  let '(r, st') := Run_turn Unmarshal (Fetched msg) st in
  r = None /\
  gpu_nodes (db st') = gpu_nodes (db st) /\
  gpu_metrics (db st') = gpu_metrics (db st) /\
  alerts (db st') = alerts (db st) /\
  alert_actions (db st') = alert_actions (db st) /\
  commits st' = (commits st ++ [msg])%list.
Proof.
  intros Hdec Hnode.
  assert (Hl : forall l st0,
             Forall (fun a => node_exists (db st0) (AlertNodeID a) = false) l ->
             gpu_nodes (db (snd (create_alerts l st0))) = gpu_nodes (db st0) /\
             gpu_metrics (db (snd (create_alerts l st0))) = gpu_metrics (db st0) /\
             alerts (db (snd (create_alerts l st0))) = alerts (db st0) /\
             alert_actions (db (snd (create_alerts l st0))) = alert_actions (db st0) /\
             commits (snd (create_alerts l st0)) = commits st0).
  { induction l as [| a l IH]; intros st0 Hall; cbn [create_alerts].
    - repeat split.
    - inversion Hall as [| a' l' Ha Hrest]; subst a' l'.
      destruct (CreateAlert_refused a st0 Ha) as [G [M [A [C [K _]]]]].
      unfold bind. destruct (CreateAlert a st0) as [err st1]. cbn [snd] in *.
      destruct (logged_frame err "Error creating alert: %v" st1) as [D2 K2].
      destruct ((match err with
                 | Some e => log_Printf "Error creating alert: %v" [AErr e]
                 | None => ret tt
                 end) st1) as [u st2]. cbn [snd] in *.
      assert (Hrest2 : Forall (fun a => node_exists (db st2) (AlertNodeID a) = false) l).
      { apply Forall_impl with (2 := Hrest). intros a0 H0.
        rewrite <- H0. apply node_exists_ids. rewrite D2, G. reflexivity. }
      destruct (IH st2 Hrest2) as [G3 [M3 [A3 [C3 K3]]]].
      rewrite G3, M3, A3, C3, K3, D2, K2. repeat split; assumption. }
  pose proof (Run_turn_reader Unmarshal (Fetched msg) st) as [R [K _]].
  cbn [Run_turn] in *. rewrite Hdec in *. unfold bind in *.
  destruct (StoreMetric_frame metric st) as [G1 [A1 [C1 [K1 [_ M1]]]]].
  specialize (M1 Hnode).
  destruct (StoreMetric metric st) as [err st1]. cbn [snd] in *.
  destruct (logged_frame err "Error storing metric: %v" st1) as [D2 K2].
  destruct ((match err with
             | Some e => log_Printf "Error storing metric: %v" [AErr e]
             | None => ret tt
             end) st1) as [u st2]. cbn [snd] in *.
  assert (Hall : Forall (fun a => node_exists (db st2) (AlertNodeID a) = false)
                        (EvaluateRules metric)).
  { apply Forall_impl with (2 := EvaluateRules_node metric). intros a ->.
    rewrite <- Hnode. apply node_exists_ids. rewrite D2, G1. reflexivity. }
  destruct (Hl (EvaluateRules metric) st2 Hall) as [G3 [M3 [A3 [C3 K3]]]].
  destruct (create_alerts (EvaluateRules metric) st2) as [u' st3]. cbn [snd] in *.
  unfold CommitMessages, ret in *. cbn in *.
  rewrite G3, M3, A3, C3, D2. repeat split; assumption.
Qed.

Example X9_unknown_node_dropped_and_committed_witness :
  let '(r, st') := Run_turn decode_stray (Fetched hot) (engine_on (init_db 0)) in
  r = None /\
  gpu_metrics (db st') = [] /\ alerts (db st') = [] /\ alert_actions (db st') = [] /\
  commits st' = [hot].
Proof.
  pose proof (X9_unknown_node_dropped_and_committed decode_stray hot
                (sample "node-9" 0 (F64.of_Z 96) (F64.of_Z 340) (F64.of_Z 78000) (F64.of_Z 80000))
                (engine_on (init_db 0)) eq_refl eq_refl) as H.
  destruct (Run_turn decode_stray (Fetched hot) (engine_on (init_db 0))) as [r st'].
  destruct H as [R [_ [M [A [C K]]]]].
  repeat split; assumption.
Defined.

Lemma filter_action_none (id : Z) (new : list ActionRow) :
  Forall (fun r => action_alert_id r <> id) new ->
  filter (fun r => action_alert_id r =? id) new = [].
Proof.
  induction 1 as [| r l Hr _ IH]; cbn; [reflexivity |].
  apply Z.eqb_neq in Hr. rewrite Hr. exact IH.
Qed.

(** X10. From a store that satisfies [db_wf] and in which no alert id has
    more than one action, [Run] reaches only such stores, whatever the
    turns, the payloads and the failures: an alert never gets a second
    action. *)
Theorem X10_at_most_one_action_per_alert
    (Unmarshal : string -> GPUMetric + error) (turns : list Turn) (st : Engine) :
  db_wf (db st) ->
  at_most_one_action (db st) ->
  db_wf (db (snd (Run Unmarshal turns st))) /\
  at_most_one_action (db (snd (Run Unmarshal turns st))).
Proof.
  intros Hwf Hone.
  apply (maintains_Run (fun d => db_wf d /\ at_most_one_action d)); [| | split; assumption].
  - intros metric st0 [W O]. split; [apply preserves_StoreMetric; exact W |].
    destruct (StoreMetric_frame metric st0) as [_ [_ [C _]]].
    intros id. rewrite (actions_of_same _ _ id C). apply O.
  - intros alert st0 [W O]. split; [apply preserves_CreateAlert; exact W |].
    pose proof (actions_of_fresh (db st0) W) as Hfresh.
    destruct (CreateAlert_shape alert st0) as [[_ C] | [_ [C | [r [C Hr]]]]]; intros id.
    + rewrite (actions_of_same _ _ id C). apply O.
    + rewrite (actions_of_same _ _ id C). apply O.
    + rewrite (actions_of_app _ _ id [r] C). cbn [filter].
      destruct (action_alert_id r =? id) eqn:E.
      * apply Z.eqb_eq in E. rewrite <- E, Hr, Hfresh. cbn. lia.
      * rewrite app_nil_r. apply O.
Qed.

Example X10_at_most_one_action_per_alert_witness :
  at_most_one_action
    (db (snd (Run decode_hot [Fetched hot; Fetched hot; CtxDone]
                  (engine_on (failing (init_db 0)))))).
Proof.
  apply (X10_at_most_one_action_per_alert decode_hot [Fetched hot; Fetched hot; CtxDone]
           (engine_on (failing (init_db 0)))).
  - split; cbn; intros ? [].
  - intros id. cbn. lia.
Defined.

(** X11. From a store without failures that satisfies [db_wf] and in which
    every alert has exactly one action, [Run] reaches only such stores:
    once a turn is over, every alert it created has its action, one and no
    more. *)
Theorem X11_one_action_per_alert_without_failures
    (Unmarshal : string -> GPUMetric + error) (turns : list Turn) (st : Engine) :
  faults (db st) = [] ->
  db_wf (db st) ->
  one_action_each (db st) ->
  one_action_each (db (snd (Run Unmarshal turns st))).
Proof.
  intros Hf Hwf Hone.
  apply (maintains_Run (fun d => faults d = [] /\ db_wf d /\ one_action_each d));
    [| | split; [| split]; assumption].
  - intros metric st0 [F [W O]].
    destruct (StoreMetric_frame metric st0) as [_ [A [C [_ [F' _]]]]].
    split; [exact (F' F) | split; [apply preserves_StoreMetric; exact W |]].
    intros a Ha. rewrite (actions_of_same _ _ _ C). apply O. rewrite <- A. exact Ha.
  - intros alert st0 [F [W O]].
    destruct (node_exists (db st0) (AlertNodeID alert)) eqn:Hnode.
    + destruct (CreateAlert_healthy alert st0 F Hnode)
        as [_ [F1 [_ [_ [_ [A1 [_ [C1 _]]]]]]]].
      split; [exact F1 | split; [apply preserves_CreateAlert; exact W |]].
      pose proof (actions_of_fresh (db st0) W) as Hfresh.
      intros a Ha. rewrite A1 in Ha. rewrite (actions_of_app _ _ _ _ C1).
      cbn [action_rows filter action_alert_id].
      apply in_app_or in Ha. destruct Ha as [Ha | [<- | []]].
      * destruct W as [Hid _]. specialize (Hid a Ha).
        replace (alerts_id_seq (db st0) =? alert_id a) with false
          by (symmetry; apply Z.eqb_neq; lia).
        rewrite app_nil_r. apply O. exact Ha.
      * cbn [alert_id]. rewrite Z.eqb_refl, Hfresh. reflexivity.
    + destruct (CreateAlert_refused alert st0 Hnode) as [_ [_ [A [C [_ F']]]]].
      split; [exact (F' F) | split; [apply preserves_CreateAlert; exact W |]].
      intros a Ha. rewrite (actions_of_same _ _ _ C). apply O. rewrite <- A. exact Ha.
Qed.

Example X11_one_action_per_alert_without_failures_witness :
  one_action_each
    (db (snd (Run decode_hot [Fetched hot; Fetched hot; CtxDone] (engine_on (init_db 0))))).
Proof.
  apply (X11_one_action_per_alert_without_failures
           decode_hot [Fetched hot; Fetched hot; CtxDone] (engine_on (init_db 0))).
  - reflexivity.
  - apply init_db_wf.
  - intros a [].
Defined.

(** ** More on EvaluateRules *)

(** X12. Every candidate reports an actual value that is strictly above its
    threshold as float64 values compare, so it is never NaN; a critical
    candidate is always a high_temperature one, and still reports the
    threshold 90.0. *)
Theorem X12_actual_above_threshold (metric : GPUMetric) :
  Forall (fun a =>
            F64.gt (ActualValue a) (ThresholdValue a) = true /\
            F64.is_nan (ActualValue a) = false /\
            (Severity a = "critical" ->
             AlertType a = "high_temperature" /\ ThresholdValue a = F64.of_Z 90))
         (EvaluateRules metric).
Proof.
  assert (Hnan : forall x y, F64.gt x y = true -> F64.is_nan x = false).
  { intros x y. unfold F64.gt, SFltb. destruct x, y; cbn; congruence. }
  rewrite EvaluateRules_eq.
  destruct (F64.gt (TemperatureCelsius metric) f90) eqn:Et,
           (F64.gt (PowerWatts metric) f330) eqn:Ep,
           (F64.gt (memoryPercent metric) f95) eqn:Em;
    cbn [app];
    repeat first
      [ apply Forall_nil
      | apply Forall_cons;
        [ split; [assumption | split; [eapply Hnan; eassumption |]];
          first [ intros _; split; reflexivity | cbn; discriminate ] |] ].
Qed.

(** ** More on resolveAlert *)

Lemma resolved_at_most_map (id : Z) (at_ : Time) (l : list AlertRow) :
  Forall2 (resolved_at_most (Some id)) l (map (resolve id at_) l).
Proof.
  induction l as [| a l IH]; cbn; constructor; [| exact IH].
  unfold resolved_at_most, resolve. destruct (alert_id a =? id) eqn:E; cbn.
  - apply Z.eqb_eq in E. subst id. repeat split. right. split; reflexivity.
  - repeat split. left. reflexivity.
Qed.

Lemma resolved_at_most_refl (target : option Z) (l : list AlertRow) :
  Forall2 (resolved_at_most target) l l.
Proof.
  induction l as [| a l IH]; constructor; [| exact IH].
  repeat split. left. reflexivity.
Qed.

(** X13. Whatever the path variable and whatever the store answers,
    [resolveAlert] leaves gpu_nodes, gpu_metrics and alert_actions as they
    were, and the alerts table with the same rows in the same order: each
    keeps its id, its columns (threshold and actual value among them) and
    its triggered_at, and is either untouched or resolved under the id the
    request names. It never degrades or restores a node and never removes
    an alert or its action. *)
Theorem X13_resolveAlert_frame
    (int4in : string -> option Z) (alertID : string) (d : DB) :
  let d' := fst (resolveAlert int4in alertID d) in
  gpu_nodes d' = gpu_nodes d /\
  gpu_metrics d' = gpu_metrics d /\
  alert_actions d' = alert_actions d /\
  Forall2 (resolved_at_most (int4in alertID)) (alerts d) (alerts d').
Proof.
  unfold resolveAlert, send.
  destruct d as [nodes metrics als acts mseq aseq cseq nw flts snt].
  unfold received. cbn [faults sent set_faults set_sent].
  destruct (hd false flts); cbn.
  - repeat split. apply resolved_at_most_refl.
  - destruct (int4in alertID) as [id |]; cbn.
    + destruct (map alert_id (filter (fun a => alert_id a =? id) als)); cbn;
        repeat split; apply resolved_at_most_map.
    + repeat split. apply resolved_at_most_refl.
Qed.

Lemma alert_exists_resolve (id id' : Z) (at_ : Time) (l : list AlertRow) :
  existsb (fun a => alert_id a =? id') (map (resolve id at_) l)
  = existsb (fun a => alert_id a =? id') l.
Proof.
  rewrite !existsb_alert_ids, map_resolve_ids. reflexivity.
Qed.

(** X14. Resolving an alert that is resolved already is answered like the
    first time: on a store without failures, a second request for the same
    id, made when the clock reads [t], gets 200 again and moves
    resolved_at to [t]. The handler does not look at the status it
    overwrites. *)
Theorem X14_resolving_twice_overwrites_resolved_at
    (int4in : string -> option Z) (alertID : string) (id : Z) (t : Time) (d : DB) :
  int4in alertID = Some id ->
  alert_exists d id = true ->
  faults d = [] ->
  let d1 := fst (resolveAlert int4in alertID d) in
  let '(d2, resp) := resolveAlert int4in alertID (at_time t d1) in
  StatusCode resp = StatusOK /\
  forall a, In a (alerts d2) -> alert_id a = id ->
            alert_status a = "resolved" /\ resolved_at a = Some t.
Proof.
  intros Hid Hex Hf. unfold resolveAlert, send. rewrite Hid.
  destruct d as [nodes metrics als acts mseq aseq cseq nw flts snt].
  unfold alert_exists in Hex. cbn in Hex, Hf. subst flts.
  unfold received, at_time. cbn.
  destruct (returning_ids id als Hex) as [ids ->]. cbn.
  assert (Hex1 : existsb (fun a => alert_id a =? id) (map (resolve id nw) als) = true).
  { rewrite alert_exists_resolve. exact Hex. }
  destruct (returning_ids id _ Hex1) as [ids1 ->]. cbn.
  split; [reflexivity |].
  intros a Ha Ea. exact (resolve_all id t _ a Ha Ea).
Qed.

Example X14_resolving_twice_overwrites_resolved_at_witness :
  map resolved_at
      (alerts (fst (resolveAlert read_decimal "1"
                      (at_time 50 (fst (resolveAlert read_decimal "1" critical_db))))))
    = [Some 50].
Proof.
  pose proof (X14_resolving_twice_overwrites_resolved_at
                read_decimal "1" 1 50 critical_db eq_refl eq_refl eq_refl) as H.
  cbv zeta in H.
  destruct (resolveAlert read_decimal "1"
              (at_time 50 (fst (resolveAlert read_decimal "1" critical_db)))) as [d2 resp]
    eqn:E.
  destruct H as [_ H]. cbn [fst].
  assert (Hd2 : map alert_id (alerts d2) = [1]).
  { apply (f_equal fst) in E. cbn [fst] in E. rewrite <- E. reflexivity. }
  destruct (alerts d2) as [| a [| b rest]]; try discriminate.
  cbn in Hd2. injection Hd2 as Hida.
  destruct (H a (or_introl eq_refl) Hida) as [_ Hr]. cbn. rewrite Hr. reflexivity.
Defined.

(** ** getNodeHealth after the engine and after resolveAlert *)

Lemma filter_degrade (p : string) (node : string) (l : list NodeRow) :
  filter (fun n => (node_id n =? p)%string) (map (degrade node) l)
  = map (degrade node) (filter (fun n => (node_id n =? p)%string) l).
Proof.
  induction l as [| n l IH]; cbn; [reflexivity |].
  assert (E : node_id (degrade node n) = node_id n)
    by (unfold degrade; destruct (node_id n =? node)%string; reflexivity).
  rewrite E. destruct (node_id n =? p)%string; cbn; rewrite IH; reflexivity.
Qed.

Lemma node_exists_filter (d : DB) (node : string) :
  node_exists d node = true ->
  exists n rest, filter (fun n => (node_id n =? node)%string) (gpu_nodes d) = n :: rest /\
                 node_id n = node.
Proof.
  unfold node_exists. induction (gpu_nodes d) as [| n l IH]; cbn; [discriminate |].
  destruct (node_id n =? node)%string eqn:E.
  - intros _. exists n. eexists. split; [reflexivity | apply String.eqb_eq; exact E].
  - exact IH.
Qed.

Lemma CreateAlert_healthy_nodes (alert : Alert) (st : Engine) :
  faults (db st) = [] ->
  node_exists (db st) (AlertNodeID alert) = true ->
  gpu_nodes (db (snd (CreateAlert alert st))) =
    if (Severity alert =? "critical")%string
    then map (degrade (AlertNodeID alert)) (gpu_nodes (db st))
    else gpu_nodes (db st).
Proof.
  intros Hf Hnode. unfold CreateAlert, TakeAction.
  destruct st as [[nodes metrics als acts mseq aseq cseq nw flts snt] cms rc dc lg].
  unfold node_exists in Hnode. cbn in Hf, Hnode. subst flts.
  run_engine. unfold send, received, alert_exists, node_exists. cbn.
  rewrite Hnode. cbn.
  destruct (Severity alert =? "critical")%string;
    [| destruct (Severity alert =? "warning")%string]; cbn;
    match goal with
    | |- context [if ?c then _ else _] => destruct c
    end; reflexivity.
Qed.

(** X15. An alert created for a node of gpu_nodes, on a store without
    failures, shows at once in what [getNodeHealth] answers for that node:
    200, with one active alert more than before, and with the status
    degraded when the alert is critical. *)
Theorem X15_new_alert_shows_in_node_health (alert : Alert) (st : Engine) :
  faults (db st) = [] ->
  node_exists (db st) (AlertNodeID alert) = true ->
  let node := AlertNodeID alert in
  let d' := db (snd (CreateAlert alert st)) in
  exists h,
    snd (getNodeHealth node d') = health_ok h /\
    HealthNodeID h = node /\
    ActiveAlerts h = Z.of_nat (List.length (active_alerts node (db st))) + 1 /\
    (Severity alert = "critical" -> Status h = "degraded").
Proof.
  intros Hf Hnode node d'. subst node d'.
  destruct (CreateAlert_healthy alert st Hf Hnode) as [_ [F1 [_ [_ [_ [A1 _]]]]]].
  pose proof (CreateAlert_healthy_nodes alert st Hf Hnode) as G1.
  destruct (node_exists_filter (db st) _ Hnode) as [n [rest [Hfil Hn]]].
  set (d1 := db (snd (CreateAlert alert st))) in *.
  assert (Hact : active_alerts (AlertNodeID alert) d1
                 = (active_alerts (AlertNodeID alert) (db st) ++
                    alert_rows (alerts_id_seq (db st)) (now (db st)) [alert])%list).
  { unfold active_alerts. rewrite A1, filter_app. cbn.
    rewrite String.eqb_refl. reflexivity. }
  unfold getNodeHealth, select_node_health. rewrite F1. cbn [hd tl].
  rewrite G1.
  destruct (Severity alert =? "critical")%string eqn:Ec.
  - rewrite filter_degrade, Hfil. cbn [map snd].
    assert (Hd : degrade (AlertNodeID alert) n
                 = {| node_pk := node_pk n; node_id := node_id n; hostname := hostname n;
                      datacenter := datacenter n; node_status := "degraded";
                      last_seen := last_seen n; created_at := created_at n |}).
    { unfold degrade. rewrite Hn, String.eqb_refl. reflexivity. }
    rewrite Hd. cbn [node_id node_status hostname datacenter last_seen].
    eexists. split; [reflexivity |]. cbn.
    rewrite Hn, Hact, length_app. cbn [alert_rows List.length].
    split; [reflexivity | split; [lia | reflexivity]].
  - rewrite Hfil. cbn [map snd].
    eexists. split; [reflexivity |]. cbn.
    rewrite Hn, Hact, length_app. cbn [alert_rows List.length].
    split; [reflexivity | split; [lia |]].
    intros Hc. rewrite Hc in Ec. discriminate.
Qed.

Example X15_new_alert_shows_in_node_health_witness :
  exists h,
    snd (getNodeHealth "node-1" (db (snd (CreateAlert critical_alert (engine_on (init_db 0))))))
      = health_ok h /\
    ActiveAlerts h = 1 /\ Status h = "degraded".
Proof.
  destruct (X15_new_alert_shows_in_node_health critical_alert (engine_on (init_db 0))
              eq_refl eq_refl) as [h [H [_ [C S]]]].
  exists h. split; [exact H | split; [exact C | exact (S eq_refl)]].
Defined.

Lemma resolve_counts_one_less (id : Z) (at_ : Time) (node : string) (a : AlertRow) :
  forall l,
    NoDup (map alert_id l) ->
    In a l -> alert_id a = id -> alert_status a = "active" ->
    AlertNodeID (alert_columns a) = node ->
    (List.length
       (filter (fun x => (AlertNodeID (alert_columns x) =? node)%string &&
                         (alert_status x =? "active")%string)
               (map (resolve id at_) l)) + 1)%nat
    = List.length
        (filter (fun x => (AlertNodeID (alert_columns x) =? node)%string &&
                          (alert_status x =? "active")%string) l).
Proof.
  induction l as [| x l IH]; intros Hnd Hin Hid Hact Hnode; [destruct Hin |].
  cbn [map] in Hnd. inversion Hnd as [| i ids Hx Hl]; subst i ids.
  cbn [map filter]. destruct Hin as [-> | Hin].
  - assert (Hnone : existsb (fun y => alert_id y =? id) l = false).
    { destruct (existsb (fun y => alert_id y =? id) l) eqn:E; [| reflexivity].
      apply existsb_exists in E. destruct E as [y [Hy Ey]]. apply Z.eqb_eq in Ey.
      exfalso. apply Hx. rewrite Hid, <- Ey. apply in_map. exact Hy. }
    destruct (returning_none id l Hnone) as [_ Hsame]. rewrite Hsame.
    unfold resolve. rewrite Hid, Z.eqb_refl. cbn.
    rewrite Hact, Hnode, String.eqb_refl. cbn. rewrite ?andb_false_r. cbn. lia.
  - assert (Hne : (alert_id x =? id) = false).
    { apply Z.eqb_neq. intros E. apply Hx. rewrite E, <- Hid. apply in_map. exact Hin. }
    assert (Hsame : resolve id at_ x = x) by (unfold resolve; rewrite Hne; reflexivity).
    rewrite Hsame.
    specialize (IH Hl Hin Hid Hact Hnode).
    destruct ((AlertNodeID (alert_columns x) =? node)%string &&
              (alert_status x =? "active")%string); cbn [List.length]; lia.
Qed.

(** X16. On a store without failures whose alert ids are all different,
    resolving an active alert takes it out of what [getNodeHealth] answers
    for its node, and changes nothing else there: the count of active
    alerts is one less, and the status of the node is what it was. A node
    that a critical alert degraded stays degraded when the alert is
    resolved. *)
Theorem X16_resolved_alert_leaves_node_health
    (int4in : string -> option Z) (alertID : string) (id : Z) (a : AlertRow) (d : DB) :
  int4in alertID = Some id ->
  faults d = [] ->
  NoDup (map alert_id (alerts d)) ->
  In a (alerts d) -> alert_id a = id -> alert_status a = "active" ->
  let node := AlertNodeID (alert_columns a) in
  let d' := fst (resolveAlert int4in alertID d) in
  forall h,
    snd (getNodeHealth node d) = health_ok h ->
    snd (getNodeHealth node d') =
      health_ok {| HealthNodeID := HealthNodeID h; Hostname := Hostname h;
                   Status := Status h; Datacenter := Datacenter h;
                   LastSeen := LastSeen h; ActiveAlerts := ActiveAlerts h - 1 |}.
Proof.
  intros Hid Hf Hnd Hin Ha Hact node d' h. subst node d'.
  assert (Hex : alert_exists d id = true).
  { apply alert_exists_In. exists a. split; assumption. }
  unfold getNodeHealth, select_node_health, resolveAlert, send.
  rewrite Hid, Hf. cbn [hd tl].
  destruct d as [nodes metrics als acts mseq aseq cseq nw flts snt].
  cbn in Hf, Hnd, Hin. unfold alert_exists in Hex. cbn in Hex. subst flts.
  unfold received, active_alerts. cbn.
  destruct (returning_ids id als Hex) as [ids ->]. cbn.
  destruct (filter (fun n => (node_id n =? AlertNodeID (alert_columns a))%string) nodes)
    as [| n rest] eqn:Hfil; cbn; [discriminate |].
  assert (Hn : node_id n = AlertNodeID (alert_columns a)).
  { assert (Hmem : In n (filter (fun n => (node_id n =? AlertNodeID (alert_columns a))%string)
                                nodes)) by (rewrite Hfil; left; reflexivity).
    apply filter_In in Hmem. apply String.eqb_eq. exact (proj2 Hmem). }
  intros H. injection H as <-. cbn. unfold health_ok. repeat f_equal.
  pose proof (resolve_counts_one_less id nw (node_id n) a als Hnd Hin Ha Hact (eq_sym Hn)) as Hc.
  lia.
Qed.

Example X16_resolved_alert_leaves_node_health_witness :
  snd (getNodeHealth "node-1" (fst (resolveAlert read_decimal "1" migrated_db)))
  = health_ok {| HealthNodeID := "node-1"; Hostname := "dgx-gpu-01.nvidia.com";
                 Status := "degraded"; Datacenter := "us-west-1";
                 LastSeen := 0; ActiveAlerts := 0 |}.
Proof.
  assert (Hnd : NoDup (map alert_id (alerts migrated_db))).
  { cbn. repeat constructor. intros []. }
  exact (X16_resolved_alert_leaves_node_health read_decimal "1" 1
           {| alert_id := 1; alert_columns := critical_alert; alert_status := "active";
              triggered_at := 0; resolved_at := None |} migrated_db
           eq_refl eq_refl Hnd (or_introl eq_refl) eq_refl eq_refl
           {| HealthNodeID := "node-1"; Hostname := "dgx-gpu-01.nvidia.com";
              Status := "degraded"; Datacenter := "us-west-1";
              LastSeen := 0; ActiveAlerts := 1 |} eq_refl).
Defined.

(** X17. When the store runs the query, [getNodeHealth] answers 404 with
    the text Node not found exactly for the ids that are not in gpu_nodes;
    for an id of the table it answers 200 with that id and the number of
    the node's alerts that are active. When the query fails the answer is
    500. In no case is a table changed. *)
Theorem X17_getNodeHealth_not_found (nodeID : string) (d : DB) :
  let '(d', resp) := getNodeHealth nodeID d in
  (gpu_nodes d' = gpu_nodes d /\ gpu_metrics d' = gpu_metrics d /\
   alerts d' = alerts d /\ alert_actions d' = alert_actions d) /\
  (hd false (faults d) = true ->
   resp = health_Error (HealthErrorText ErrStore) StatusInternalServerError) /\
  (hd false (faults d) = false -> node_exists d nodeID = false ->
   resp = health_Error (HealthText "Node not found") StatusNotFound) /\
  (hd false (faults d) = false -> node_exists d nodeID = true ->
   exists h, resp = health_ok h /\ HealthNodeID h = nodeID /\
             ActiveAlerts h = Z.of_nat (List.length (active_alerts nodeID d))).
Proof.
  unfold getNodeHealth, select_node_health.
  destruct (hd false (faults d)) eqn:F.
  - cbn. repeat split; intros; try reflexivity; discriminate.
  - destruct (node_exists d nodeID) eqn:E.
    + destruct (node_exists_filter d nodeID E) as [n [rest [-> Hn]]]. cbn.
      repeat split; intros; try discriminate.
      eexists. split; [reflexivity |]. cbn. rewrite Hn. split; reflexivity.
    + assert (Hnone : filter (fun n => (node_id n =? nodeID)%string) (gpu_nodes d) = []).
      { unfold node_exists in E. induction (gpu_nodes d) as [| n l IH]; cbn in *;
          [reflexivity |].
        apply orb_false_elim in E. destruct E as [E1 E2]. rewrite E1. exact (IH E2). }
      rewrite Hnone. cbn. repeat split; intros; try reflexivity; discriminate.
Qed.

Example X17_getNodeHealth_not_found_witness :
  snd (getNodeHealth "node-9" (init_db 0))
    = health_Error (HealthText "Node not found") StatusNotFound /\
  HealthStatusCode (snd (getNodeHealth "node-2" (init_db 0))) = StatusOK /\
  HealthStatusCode (snd (getNodeHealth "node-2" (failing (init_db 0))))
    = StatusInternalServerError.
Proof.
  pose proof (X17_getNodeHealth_not_found "node-9" (init_db 0)) as H9.
  pose proof (X17_getNodeHealth_not_found "node-2" (init_db 0)) as H2.
  pose proof (X17_getNodeHealth_not_found "node-2" (failing (init_db 0))) as HF.
  destruct (getNodeHealth "node-9" (init_db 0)) as [d9 r9].
  destruct (getNodeHealth "node-2" (init_db 0)) as [d2 r2].
  destruct (getNodeHealth "node-2" (failing (init_db 0))) as [dF rF].
  destruct H9 as [_ [_ [H9 _]]]. destruct H2 as [_ [_ [_ H2]]]. destruct HF as [_ [HF _]].
  destruct (H2 eq_refl eq_refl) as [h [-> _]].
  cbn [snd]. rewrite (H9 eq_refl eq_refl), (HF eq_refl). repeat split.
Defined.
